(** * GnuCash application options: a shallow embedding of gnc-option.hpp

    The header libgnucash/app-utils/gnc-option.hpp declares the option
    classifier, the UI-item mixin, the five option classes
    (GncOptionValue, GncOptionValidatedValue, GncOptionRangeValue,
    GncOptionMultichoiceValue, GncOptionDateValue) and the GncOption
    wrapper around a std::variant of them.

    Member functions are embedded as computations over the object they are
    called on.  A C++ exception does not roll the object back, so a
    computation returns the outcome (an exception or a result) together
    with the object as it is when control leaves the function. *)

From Stdlib Require Import ZArith NArith String List Bool Lia.
From Stdlib Require Import Floats.PrimFloat.
Import ListNotations.

Local Open Scope string_scope.

(** ** Exceptions and member-function computations *)

(** The standard exceptions the header throws.  [std::vector::at] throws
    [std::out_of_range] with a text the library chooses, so that one
    carries no text here. *)
Inductive exn : Type :=
| std_logic_error (what : string)
| std_invalid_argument (what : string)
| std_out_of_range
| std_bad_function_call.

(** [M Obj A]: a member function of [Obj] that returns an [A] or throws. *)
Definition M (Obj A : Type) : Type := Obj -> (exn + A) * Obj.

Definition ret {Obj A} (a : A) : M Obj A := fun o => (inr a, o).

Definition throw {Obj A} (e : exn) : M Obj A := fun o => (inl e, o).

Definition bind {Obj A B} (m : M Obj A) (k : A -> M Obj B) : M Obj B :=
  fun o =>
    match m o with
    | (inl e, o') => (inl e, o')
    | (inr a, o') => k a o'
    end.

Definition get {Obj} : M Obj Obj := fun o => (inr o, o).

Definition put {Obj} (o' : Obj) : M Obj unit := fun _ => (inr tt, o').

Definition modify {Obj} (f : Obj -> Obj) : M Obj unit := fun o => (inr tt, f o).

Notation "x <- m ;; k" := (bind m (fun x => k))
  (at level 61, m at next level, right associativity).
Notation "m ;;; k" := (bind m (fun _ => k))
  (at level 61, right associativity).

(** Runs a member function of a base class or data member [Part] on the
    object that contains it. *)
Definition within {Obj Part A}
    (proj : Obj -> Part) (upd : Part -> Obj -> Obj) (m : M Part A) : M Obj A :=
  fun o => let (r, p') := m (proj o) in (r, upd p' o).

(** The object after a call, whether it returned or threw (the caller
    catches the exception and goes on). *)
Definition after {Obj A} (m : M Obj A) (o : Obj) : Obj := snd (m o).

(** The object after a sequence of calls, each one caught if it throws. *)
Fixpoint after_all {Obj A} (ms : list (M Obj A)) (o : Obj) : Obj :=
  match ms with
  | [] => o
  | m :: ms' => after_all ms' (after m o)
  end.

(** ** Scalar types of the header *)

(** std::function<B(A)>: empty, or holding a callable target.  Calling an
    empty one throws std::bad_function_call. *)
Definition std_function (A B : Type) : Type := option (A -> B).

Definition invoke {Obj A B : Type} (f : std_function A B) (a : A) : M Obj B :=
  match f with
  | Some target => ret (target a)
  | None => throw std_bad_function_call
  end.

(** A raw pointer: null or the address of an object owned elsewhere. *)
Inductive pointer : Type :=
| nullptr
| address (a : positive).

Definition pointer_eqb (p q : pointer) : bool :=
  match p, q with
  | nullptr, nullptr => true
  | address a, address b => Pos.eqb a b
  | _, _ => false
  end.

(** [std::size_t] on the 64-bit targets GnuCash builds for. *)
Definition size_t : Type := N.
Definition size_t_max : size_t := (2 ^ 64 - 1)%N.

(** [int64_t] and [time64] (qof.h: a typedef of gint64) are the same
    64-bit signed integer; [int] is the 32-bit one.  The header only
    stores and compares them, so they are integers here. *)
Definition int64_t : Type := Z.
Definition time64 : Type := int64_t.
Definition int : Type := Z.
Definition double : Type := float.

Record GncGUID : Type := { guid_bytes : list N }.

(** ** GncOptionUIType, OptionClassifier *)

Inductive GncOptionUIType : Type :=
| INTERNAL | BOOLEAN | STRING | TEXT | CURRENCY | COMMODITY | MULTICHOICE
| DATE | ACCOUNT_LIST | ACCOUNT_SEL | LIST | NUMBER_RANGE | COLOR | FONT
| BUDGET | PIXMAP | RADIOBUTTON | DATE_FORMAT | OWNER | CUSTOMER | VENDOR
| EMPLOYEE | INVOICE | TAX_TABLE | QUERY.

Definition GncOptionUIType_eqb (a b : GncOptionUIType) : bool :=
  match a, b with
  | INTERNAL, INTERNAL | BOOLEAN, BOOLEAN | STRING, STRING | TEXT, TEXT
  | CURRENCY, CURRENCY | COMMODITY, COMMODITY | MULTICHOICE, MULTICHOICE
  | DATE, DATE | ACCOUNT_LIST, ACCOUNT_LIST | ACCOUNT_SEL, ACCOUNT_SEL
  | LIST, LIST | NUMBER_RANGE, NUMBER_RANGE | COLOR, COLOR | FONT, FONT
  | BUDGET, BUDGET | PIXMAP, PIXMAP | RADIOBUTTON, RADIOBUTTON
  | DATE_FORMAT, DATE_FORMAT | OWNER, OWNER | CUSTOMER, CUSTOMER
  | VENDOR, VENDOR | EMPLOYEE, EMPLOYEE | INVOICE, INVOICE
  | TAX_TABLE, TAX_TABLE | QUERY, QUERY => true
  | _, _ => false
  end.

Record OptionClassifier : Type := {
  m_section : string;
  m_name : string;
  m_sort_tag : string;
  m_doc_string : string
}.

(** ** OptionUIItem *)

Module UIItem.

Record OptionUIItem : Type := {
  m_ui_item : pointer;
  m_ui_type : GncOptionUIType
}.

(** OptionUIItem(GncOptionUIType ui_type) *)
Definition ctor (ui_type : GncOptionUIType) : OptionUIItem :=
  {| m_ui_item := nullptr; m_ui_type := ui_type |}.

Definition get_ui_type : M OptionUIItem GncOptionUIType :=
  o <- get ;; ret (m_ui_type o).

Definition get_ui_item : M OptionUIItem pointer :=
  o <- get ;; ret (m_ui_item o).

Definition clear_ui_item : M OptionUIItem unit :=
  modify (fun o => {| m_ui_item := nullptr; m_ui_type := m_ui_type o |}).

Definition set_ui_item (ui_item : pointer) : M OptionUIItem unit :=
  o <- get ;;
  (if GncOptionUIType_eqb (m_ui_type o) INTERNAL
   then throw (std_logic_error "INTERNAL option, setting the UI item forbidden.")
   else ret tt) ;;;
  modify (fun o => {| m_ui_item := ui_item; m_ui_type := m_ui_type o |}).

Definition make_internal : M OptionUIItem unit :=
  o <- get ;;
  (if negb (pointer_eqb (m_ui_item o) nullptr)
   then throw (std_logic_error "Option has a UI Element, can't be INTERNAL.")
   else ret tt) ;;;
  modify (fun o => {| m_ui_item := m_ui_item o; m_ui_type := INTERNAL |}).

(** The calls that change the UI binding. *)
Inductive call : Type :=
| call_set_ui_item (ui_item : pointer)
| call_clear_ui_item
| call_make_internal.

Definition perform (c : call) : M OptionUIItem unit :=
  match c with
  | call_set_ui_item p => set_ui_item p
  | call_clear_ui_item => clear_ui_item
  | call_make_internal => make_internal
  end.

(** States of the binding that a program can bring about: the
    constructor, then any calls, a throwing call being caught. *)
Inductive reachable : OptionUIItem -> Prop :=
| reach_ctor ui_type : reachable (ctor ui_type)
| reach_call o c : reachable o -> reachable (after (perform c) o).

End UIItem.

Export UIItem.

(** A class that derives from [Base]: the base sub-object can be read and
    replaced, and a member function of the base runs on the derived
    object. *)
Class Derives (Obj Base : Type) : Type := {
  base : Obj -> Base;
  with_base : Base -> Obj -> Obj
}.

Definition inherited {Obj Base A} `{Derives Obj Base} (m : M Base A) : M Obj A :=
  within base with_base m.

(** ** GncOptionValue<ValueType> *)

Module PlainValue.
Section Template.
Variable ValueType : Type.

Record GncOptionValue : Type := {
  classifier : OptionClassifier;
  ui : OptionUIItem;
  m_value : ValueType;
  m_default_value : ValueType
}.

(** The constructor; [ui_type] defaults to INTERNAL in the header. *)
Definition ctor (section name key doc_string : string) (value : ValueType)
    (ui_type : GncOptionUIType) : GncOptionValue :=
  {| classifier := {| m_section := section; m_name := name;
                      m_sort_tag := key; m_doc_string := doc_string |};
     ui := UIItem.ctor ui_type;
     m_value := value;
     m_default_value := value |}.

Definition get_value : M GncOptionValue ValueType :=
  o <- get ;; ret (m_value o).

Definition get_default_value : M GncOptionValue ValueType :=
  o <- get ;; ret (m_default_value o).

Definition set_value (new_value : ValueType) : M GncOptionValue unit :=
  modify (fun o => {| classifier := classifier o; ui := ui o;
                      m_value := new_value;
                      m_default_value := m_default_value o |}).

#[global] Instance derives_ui : Derives GncOptionValue OptionUIItem := {
  base := ui;
  with_base u o := {| classifier := classifier o; ui := u;
                      m_value := m_value o;
                      m_default_value := m_default_value o |}
}.
End Template.
Arguments classifier {ValueType}.
Arguments ui {ValueType}.
Arguments m_value {ValueType}.
Arguments m_default_value {ValueType}.
Arguments ctor {ValueType}.
Arguments get_value {ValueType}.
Arguments get_default_value {ValueType}.
Arguments set_value {ValueType}.
End PlainValue.

(** ** GncOptionValidatedValue<ValueType> *)

Module Validated.
Section Template.
Variable ValueType : Type.

(** [m_validator] is a std::function<bool(ValueType)>.
    [m_validation_data] is set only by the constructor overload that
    takes [val_data]; that overload names no OptionUIItem initialiser
    and OptionUIItem has no default constructor, so it cannot be
    instantiated, and the member stays unset. *)
Record GncOptionValidatedValue : Type := {
  classifier : OptionClassifier;
  ui : OptionUIItem;
  m_value : ValueType;
  m_default_value : ValueType;
  m_validator : std_function ValueType bool;
  m_validation_data : option ValueType
}.

Definition validate (value : ValueType) : M GncOptionValidatedValue bool :=
  o <- get ;; invoke (m_validator o) value.

(** The constructor initialises the members and then validates: it
    yields the object or throws; [ui_type] defaults to INTERNAL. *)
Definition ctor (section name key doc_string : string) (value : ValueType)
    (validator : std_function ValueType bool) (ui_type : GncOptionUIType)
    : exn + GncOptionValidatedValue :=
  let this :=
    {| classifier := {| m_section := section; m_name := name;
                        m_sort_tag := key; m_doc_string := doc_string |};
       ui := UIItem.ctor ui_type;
       m_value := value;
       m_default_value := value;
       m_validator := validator;
       m_validation_data := None |} in
  match (ok <- validate value ;;
         if negb ok
         then throw (std_invalid_argument
                       "Attempt to create GncValidatedOption with bad value.")
         else ret tt) this with
  | (inl e, _) => inl e
  | (inr _, this') => inr this'
  end.

Definition get_value : M GncOptionValidatedValue ValueType :=
  o <- get ;; ret (m_value o).

Definition get_default_value : M GncOptionValidatedValue ValueType :=
  o <- get ;; ret (m_default_value o).

Definition set_value (value : ValueType) : M GncOptionValidatedValue unit :=
  ok <- validate value ;;
  if ok
  then modify (fun o => {| classifier := classifier o; ui := ui o;
                           m_value := value;
                           m_default_value := m_default_value o;
                           m_validator := m_validator o;
                           m_validation_data := m_validation_data o |})
  else throw (std_invalid_argument "Validation failed, value not set.").

#[global] Instance derives_ui : Derives GncOptionValidatedValue OptionUIItem := {
  base := ui;
  with_base u o := {| classifier := classifier o; ui := u;
                      m_value := m_value o;
                      m_default_value := m_default_value o;
                      m_validator := m_validator o;
                      m_validation_data := m_validation_data o |}
}.
End Template.
Arguments classifier {ValueType}.
Arguments ui {ValueType}.
Arguments m_value {ValueType}.
Arguments m_default_value {ValueType}.
Arguments m_validator {ValueType}.
Arguments m_validation_data {ValueType}.
Arguments validate {ValueType}.
Arguments ctor {ValueType}.
Arguments get_value {ValueType}.
Arguments get_default_value {ValueType}.
Arguments set_value {ValueType}.
End Validated.

(** ** GncOptionRangeValue<ValueType> *)

(** What the range template asks of [ValueType]: [operator>=] and
    [operator<=].  [le_rel] is the order the two operators decide. *)
Class Comparable (T : Type) : Type := {
  ge_op : T -> T -> bool;
  le_op : T -> T -> bool;
  le_rel : T -> T -> Prop;
  ge_op_spec : forall a b, ge_op a b = true <-> le_rel b a;
  le_op_spec : forall a b, le_op a b = true <-> le_rel a b
}.

#[export, refine] Instance int_Comparable : Comparable int := {
  ge_op := Z.geb;
  le_op := Z.leb;
  le_rel := Z.le
}.
Proof.
  - intros a b. apply Z.geb_le.
  - intros a b. apply Z.leb_le.
Defined.

(** IEEE comparison of doubles: [a >= b] is [b <= a], and both are false
    when an operand is a NaN. *)
#[export, refine] Instance double_Comparable : Comparable double := {
  ge_op a b := PrimFloat.leb b a;
  le_op a b := PrimFloat.leb a b;
  le_rel a b := PrimFloat.leb a b = true
}.
Proof.
  - intros a b. reflexivity.
  - intros a b. reflexivity.
Defined.

Module Range.
Section Template.
Context {ValueType : Type} `{Comparable ValueType}.

Record GncOptionRangeValue : Type := {
  classifier : OptionClassifier;
  ui : OptionUIItem;
  m_value : ValueType;
  m_default_value : ValueType;
  m_min : ValueType;
  m_max : ValueType;
  m_step : ValueType
}.

Definition ctor (section name key doc_string : string)
    (value min max step : ValueType) : GncOptionRangeValue :=
  {| classifier := {| m_section := section; m_name := name;
                      m_sort_tag := key; m_doc_string := doc_string |};
     ui := UIItem.ctor NUMBER_RANGE;
     m_value := if ge_op value min && le_op value max then value else min;
     m_default_value := if ge_op value min && le_op value max then value else min;
     m_min := min;
     m_max := max;
     m_step := step |}.

Definition get_value : M GncOptionRangeValue ValueType :=
  o <- get ;; ret (m_value o).

Definition get_default_value : M GncOptionRangeValue ValueType :=
  o <- get ;; ret (m_default_value o).

Definition validate (value : ValueType) : M GncOptionRangeValue bool :=
  o <- get ;; ret (ge_op value (m_min o) && le_op value (m_max o)).

Definition set_value (value : ValueType) : M GncOptionRangeValue unit :=
  ok <- validate value ;;
  if ok
  then modify (fun o => {| classifier := classifier o; ui := ui o;
                           m_value := value;
                           m_default_value := m_default_value o;
                           m_min := m_min o; m_max := m_max o;
                           m_step := m_step o |})
  else throw (std_invalid_argument "Validation failed, value not set.").

#[global] Instance derives_ui : Derives GncOptionRangeValue OptionUIItem := {
  base := ui;
  with_base u o := {| classifier := classifier o; ui := u;
                      m_value := m_value o;
                      m_default_value := m_default_value o;
                      m_min := m_min o; m_max := m_max o;
                      m_step := m_step o |}
}.
End Template.
Arguments GncOptionRangeValue : clear implicits.
End Range.

(** ** GncOptionMultichoiceValue *)

(** std::tuple<const std::string, const std::string, const std::string>:
    key, display name, description. *)
Definition GncMultiChoiceOptionEntry : Type := (string * string * string)%type.
Definition GncMultiChoiceOptionChoices : Type := list GncMultiChoiceOptionEntry.

Definition get_0 (e : GncMultiChoiceOptionEntry) : string := let '(k, _, _) := e in k.
Definition get_1 (e : GncMultiChoiceOptionEntry) : string := let '(_, n, _) := e in n.
Definition get_2 (e : GncMultiChoiceOptionEntry) : string := let '(_, _, d) := e in d.

(** [std::find_if] over a whole vector: the offset from [begin()] of the
    first element that satisfies [pred], or the offset of [end()], the
    size, when there is none. *)
Fixpoint find_if {A : Type} (pred : A -> bool) (v : list A) : nat :=
  match v with
  | [] => 0
  | x :: v' => if pred x then 0 else S (find_if pred v')
  end.

(** [std::vector::at]: the range check, then the element. *)
Definition vector_at {Obj A : Type} (v : list A) (n : size_t) : M Obj A :=
  if (N.of_nat (length v) <=? n)%N
  then throw std_out_of_range
  else match nth_error v (N.to_nat n) with
       | Some x => ret x
       | None => throw std_out_of_range
       end.

Module Multichoice.

Record GncOptionMultichoiceValue : Type := {
  classifier : OptionClassifier;
  ui : OptionUIItem;
  m_value : size_t;
  m_default_value : size_t;
  m_choices : GncMultiChoiceOptionChoices
}.

(** The constructor; [ui_type] defaults to MULTICHOICE in the header.
    [m_value{}] and [m_default_value{}] are value-initialised to 0. *)
Definition ctor (section name key doc_string : string)
    (choices : GncMultiChoiceOptionChoices) (ui_type : GncOptionUIType)
    : GncOptionMultichoiceValue :=
  {| classifier := {| m_section := section; m_name := name;
                      m_sort_tag := key; m_doc_string := doc_string |};
     ui := UIItem.ctor ui_type;
     m_value := 0%N;
     m_default_value := 0%N;
     m_choices := choices |}.

(** [iter - m_choices.begin()] converted to std::size_t. *)
Definition find_key (key : string) : M GncOptionMultichoiceValue size_t :=
  o <- get ;;
  let iter := find_if (fun choice => String.eqb (get_0 choice) key) (m_choices o) in
  if negb (Nat.eqb iter (length (m_choices o)))
  then ret (N.of_nat iter mod 2 ^ 64)%N
  else ret size_t_max.

Definition get_value : M GncOptionMultichoiceValue string :=
  o <- get ;;
  e <- vector_at (m_choices o) (m_value o) ;;
  ret (get_0 e).

Definition get_default_value : M GncOptionMultichoiceValue string :=
  o <- get ;;
  e <- vector_at (m_choices o) (m_default_value o) ;;
  ret (get_0 e).

Definition validate (value : string) : M GncOptionMultichoiceValue bool :=
  index <- find_key value ;;
  ret (negb (N.eqb index size_t_max)).

Definition set_value (value : string) : M GncOptionMultichoiceValue unit :=
  index <- find_key value ;;
  if negb (N.eqb index size_t_max)
  then modify (fun o => {| classifier := classifier o; ui := ui o;
                           m_value := index;
                           m_default_value := m_default_value o;
                           m_choices := m_choices o |})
  else throw (std_invalid_argument "Value not a valid choice.").

Definition num_permissible_values : M GncOptionMultichoiceValue size_t :=
  o <- get ;; ret (N.of_nat (length (m_choices o)) mod 2 ^ 64)%N.

Definition permissible_value_index (key : string) : M GncOptionMultichoiceValue size_t :=
  find_key key.

Definition permissible_value (index : size_t) : M GncOptionMultichoiceValue string :=
  o <- get ;; e <- vector_at (m_choices o) index ;; ret (get_0 e).

Definition permissible_value_name (index : size_t) : M GncOptionMultichoiceValue string :=
  o <- get ;; e <- vector_at (m_choices o) index ;; ret (get_1 e).

Definition permissible_value_description (index : size_t)
    : M GncOptionMultichoiceValue string :=
  o <- get ;; e <- vector_at (m_choices o) index ;; ret (get_2 e).

#[global] Instance derives_ui : Derives GncOptionMultichoiceValue OptionUIItem := {
  base := ui;
  with_base u o := {| classifier := classifier o; ui := u;
                      m_value := m_value o;
                      m_default_value := m_default_value o;
                      m_choices := m_choices o |}
}.

(** The calls that can change a multichoice option. *)
Inductive call : Type :=
| call_set_value (value : string)
| call_ui (c : UIItem.call).

Definition perform (c : call) : M GncOptionMultichoiceValue unit :=
  match c with
  | call_set_value value => set_value value
  | call_ui c' => inherited (UIItem.perform c')
  end.

(** The states a multichoice option can be in: as constructed, then after
    any calls, a throwing call being caught. *)
Inductive constructible : GncOptionMultichoiceValue -> Prop :=
| made section name key doc_string choices ui_type :
    constructible (ctor section name key doc_string choices ui_type)
| called o c : constructible o -> constructible (after (perform c) o).

(** The stored indices are in order: the default is 0, and the value is
    0 or addresses an entry. *)
Definition indices_ok (o : GncOptionMultichoiceValue) : Prop :=
  m_default_value o = 0%N /\
  (m_value o = 0%N \/ (m_value o < N.of_nat (length (m_choices o)))%N).

(** What std::vector guarantees about its size: [max_size()] is below the
    largest std::size_t. *)
Definition vector_size_ok (o : GncOptionMultichoiceValue) : Prop :=
  (N.of_nat (length (m_choices o)) <= size_t_max)%N.

(** [i] is the first position, in declaration order, whose key is [key]. *)
Definition first_with_key (key : string) (choices : GncMultiChoiceOptionChoices)
    (i : nat) : Prop :=
  (exists e, nth_error choices i = Some e /\ get_0 e = key) /\
  (forall j e, j < i -> nth_error choices j = Some e -> get_0 e <> key).

End Multichoice.

(** ** GncOptionDateValue *)

Inductive DateType : Type := ABSOLUTE | STARTING | ENDING.

Inductive RelativeDatePeriod : Type :=
| TODAY | THIS_MONTH | PREV_MONTH | CURRENT_QUARTER | PREV_QUARTER
| CAL_YEAR | PREV_YEAR | ACCOUNTING_PERIOD.

Definition DateSetterValue : Type := (DateType * int64_t)%type.

Module DateValue.

Record GncOptionDateValue : Type := {
  classifier : OptionClassifier;
  ui : OptionUIItem;
  m_type : DateType;
  m_period : RelativeDatePeriod;
  m_date : time64
}.

Section Clock.
(** [static_cast<time64>(GncDateTime())] is the time at which the
    expression is evaluated (gnc-datetime.hpp); [now] is that time. *)
Variable now : time64.

Definition ctor (section name key doc_string : string) : GncOptionDateValue :=
  {| classifier := {| m_section := section; m_name := name;
                      m_sort_tag := key; m_doc_string := doc_string |};
     ui := UIItem.ctor DATE;
     m_type := ABSOLUTE;
     m_period := TODAY;
     m_date := now |}.

Definition get_default_value : M GncOptionDateValue time64 :=
  ret now.

(** The start or end of a relative period, seen from a given time: the
    computation belongs to gnc-option.cpp and the date library. *)
Variable relative_date : DateType -> RelativeDatePeriod -> time64 -> time64.

(** Modelled from the spec: the header only declares
    [time64 get_value() const]; its body is in gnc-option.cpp, which is
    not part of the sources.  In absolute mode it returns the stored
    timestamp, in a relative mode the boundary of the period evaluated at
    the time of the call. *)
Definition get_value : M GncOptionDateValue time64 :=
  o <- get ;;
  match m_type o with
  | ABSOLUTE => ret (m_date o)
  | t => ret (relative_date t (m_period o) now)
  end.
End Clock.

(** set_value(time64 time); the overload set_value(DateSetterValue) is
    declared only. *)
Definition set_value (time : time64) : M GncOptionDateValue unit :=
  modify (fun o => {| classifier := classifier o; ui := ui o;
                      m_type := ABSOLUTE; m_period := TODAY; m_date := time |}).

#[global] Instance derives_ui : Derives GncOptionDateValue OptionUIItem := {
  base := ui;
  with_base u o := {| classifier := classifier o; ui := u;
                      m_type := m_type o; m_period := m_period o;
                      m_date := m_date o |}
}.

End DateValue.

(** ** GncOption and its variant *)

(** The value types a caller can name in [get_value<ValueType>] and
    [set_value<ValueType>], after std::decay_t: the value types of the
    eleven alternatives, and DateSetterValue, which no alternative has. *)
Inductive cpp_type : Type :=
| std_string
| cpp_bool
| cpp_int64_t
| QofInstance_ptr
| QofQuery_ptr
| GncGUID_vector
| cpp_int
| cpp_double
| cpp_DateSetterValue.

Definition cpp_type_eq_dec (a b : cpp_type) : {a = b} + {a <> b}.
Proof. decide equality. Defined.

Definition denote (T : cpp_type) : Type :=
  match T with
  | std_string => string
  | cpp_bool => bool
  | cpp_int64_t => int64_t
  | QofInstance_ptr => pointer
  | QofQuery_ptr => pointer
  | GncGUID_vector => list GncGUID
  | cpp_int => int
  | cpp_double => double
  | cpp_DateSetterValue => DateSetterValue
  end.

(** [ValueType {}]: the value-initialised object of each type. *)
Definition value_init (T : cpp_type) : denote T :=
  match T with
  | std_string => ""
  | cpp_bool => false
  | cpp_int64_t => 0%Z
  | QofInstance_ptr => nullptr
  | QofQuery_ptr => nullptr
  | GncGUID_vector => []
  | cpp_int => 0%Z
  | cpp_double => PrimFloat.zero
  | cpp_DateSetterValue => (ABSOLUTE, 0%Z)
  end.

Inductive GncOptionVariant : Type :=
| alt_Value_string (o : PlainValue.GncOptionValue string)
| alt_Value_bool (o : PlainValue.GncOptionValue bool)
| alt_Value_int64_t (o : PlainValue.GncOptionValue int64_t)
| alt_Value_QofInstance (o : PlainValue.GncOptionValue pointer)
| alt_Value_QofQuery (o : PlainValue.GncOptionValue pointer)
| alt_Value_GncGUID_vector (o : PlainValue.GncOptionValue (list GncGUID))
| alt_Multichoice (o : Multichoice.GncOptionMultichoiceValue)
| alt_Range_int (o : Range.GncOptionRangeValue int)
| alt_Range_double (o : Range.GncOptionRangeValue double)
| alt_Validated_QofInstance (o : Validated.GncOptionValidatedValue pointer)
| alt_Date (o : DateValue.GncOptionDateValue).

(** std::decay_t<decltype(option.get_value())> of the active alternative. *)
Definition value_type (v : GncOptionVariant) : cpp_type :=
  match v with
  | alt_Value_string _ => std_string
  | alt_Value_bool _ => cpp_bool
  | alt_Value_int64_t _ => cpp_int64_t
  | alt_Value_QofInstance _ => QofInstance_ptr
  | alt_Value_QofQuery _ => QofQuery_ptr
  | alt_Value_GncGUID_vector _ => GncGUID_vector
  | alt_Multichoice _ => std_string
  | alt_Range_int _ => cpp_int
  | alt_Range_double _ => cpp_double
  | alt_Validated_QofInstance _ => QofInstance_ptr
  | alt_Date _ => cpp_int64_t
  end.

Module Option.

Record GncOption : Type := { m_option : GncOptionVariant }.

(** The body of a visitor for one alternative: runs [m] on the
    alternative's object, which stays the active member. *)
Definition on {Alt A : Type} (inj : Alt -> GncOptionVariant) (m : M Alt A) (o : Alt)
    : (exn + A) * GncOption :=
  let (r, o') := m o in (r, {| m_option := inj o' |}).

(** [if constexpr (std::is_same_v<U, T>) return then_; return else_;] for
    a visitor whose result type is named by [T]. *)
Definition if_same_type {Alt : Type} (U T : cpp_type)
    (then_ : M Alt (denote U)) (else_ : M Alt (denote T)) : M Alt (denote T) :=
  match cpp_type_eq_dec U T with
  | left e => eq_rect U (fun t => M Alt (denote t)) then_ T e
  | right _ => else_
  end.

(** [if constexpr (std::is_same_v<U, T>) option.set_value(value);] *)
Definition if_same_type_set {Alt : Type} (U T : cpp_type)
    (set : denote U -> M Alt unit) (value : denote T) : M Alt unit :=
  match cpp_type_eq_dec U T with
  | left e => set (eq_rect_r denote value e)
  | right _ => ret tt
  end.

(** template <typename OptionType> GncOption(OptionType option) *)
Definition wrap (option : GncOptionVariant) : GncOption := {| m_option := option |}.

Section Clock.
Variable now : time64.
Variable relative_date : DateType -> RelativeDatePeriod -> time64 -> time64.

Definition get_value (T : cpp_type) : M GncOption (denote T) :=
  fun this =>
    match m_option this with
    | alt_Value_string o =>
        on alt_Value_string
          (if_same_type std_string T PlainValue.get_value (ret (value_init T))) o
    | alt_Value_bool o =>
        on alt_Value_bool
          (if_same_type cpp_bool T PlainValue.get_value (ret (value_init T))) o
    | alt_Value_int64_t o =>
        on alt_Value_int64_t
          (if_same_type cpp_int64_t T PlainValue.get_value (ret (value_init T))) o
    | alt_Value_QofInstance o =>
        on alt_Value_QofInstance
          (if_same_type QofInstance_ptr T PlainValue.get_value (ret (value_init T))) o
    | alt_Value_QofQuery o =>
        on alt_Value_QofQuery
          (if_same_type QofQuery_ptr T PlainValue.get_value (ret (value_init T))) o
    | alt_Value_GncGUID_vector o =>
        on alt_Value_GncGUID_vector
          (if_same_type GncGUID_vector T PlainValue.get_value (ret (value_init T))) o
    | alt_Multichoice o =>
        on alt_Multichoice
          (if_same_type std_string T Multichoice.get_value (ret (value_init T))) o
    | alt_Range_int o =>
        on alt_Range_int
          (if_same_type cpp_int T Range.get_value (ret (value_init T))) o
    | alt_Range_double o =>
        on alt_Range_double
          (if_same_type cpp_double T Range.get_value (ret (value_init T))) o
    | alt_Validated_QofInstance o =>
        on alt_Validated_QofInstance
          (if_same_type QofInstance_ptr T Validated.get_value (ret (value_init T))) o
    | alt_Date o =>
        on alt_Date
          (if_same_type cpp_int64_t T (DateValue.get_value now relative_date)
             (ret (value_init T))) o
    end.

Definition get_default_value (T : cpp_type) : M GncOption (denote T) :=
  fun this =>
    match m_option this with
    | alt_Value_string o =>
        on alt_Value_string
          (if_same_type std_string T PlainValue.get_default_value (ret (value_init T))) o
    | alt_Value_bool o =>
        on alt_Value_bool
          (if_same_type cpp_bool T PlainValue.get_default_value (ret (value_init T))) o
    | alt_Value_int64_t o =>
        on alt_Value_int64_t
          (if_same_type cpp_int64_t T PlainValue.get_default_value (ret (value_init T))) o
    | alt_Value_QofInstance o =>
        on alt_Value_QofInstance
          (if_same_type QofInstance_ptr T PlainValue.get_default_value
             (ret (value_init T))) o
    | alt_Value_QofQuery o =>
        on alt_Value_QofQuery
          (if_same_type QofQuery_ptr T PlainValue.get_default_value (ret (value_init T))) o
    | alt_Value_GncGUID_vector o =>
        on alt_Value_GncGUID_vector
          (if_same_type GncGUID_vector T PlainValue.get_default_value
             (ret (value_init T))) o
    | alt_Multichoice o =>
        on alt_Multichoice
          (if_same_type std_string T Multichoice.get_default_value (ret (value_init T))) o
    | alt_Range_int o =>
        on alt_Range_int
          (if_same_type cpp_int T Range.get_default_value (ret (value_init T))) o
    | alt_Range_double o =>
        on alt_Range_double
          (if_same_type cpp_double T Range.get_default_value (ret (value_init T))) o
    | alt_Validated_QofInstance o =>
        on alt_Validated_QofInstance
          (if_same_type QofInstance_ptr T Validated.get_default_value
             (ret (value_init T))) o
    | alt_Date o =>
        on alt_Date
          (if_same_type cpp_int64_t T (DateValue.get_default_value now)
             (ret (value_init T))) o
    end.
End Clock.

Definition set_value (T : cpp_type) (value : denote T) : M GncOption unit :=
  fun this =>
    match m_option this with
    | alt_Value_string o =>
        on alt_Value_string (if_same_type_set std_string T PlainValue.set_value value) o
    | alt_Value_bool o =>
        on alt_Value_bool (if_same_type_set cpp_bool T PlainValue.set_value value) o
    | alt_Value_int64_t o =>
        on alt_Value_int64_t (if_same_type_set cpp_int64_t T PlainValue.set_value value) o
    | alt_Value_QofInstance o =>
        on alt_Value_QofInstance
          (if_same_type_set QofInstance_ptr T PlainValue.set_value value) o
    | alt_Value_QofQuery o =>
        on alt_Value_QofQuery (if_same_type_set QofQuery_ptr T PlainValue.set_value value) o
    | alt_Value_GncGUID_vector o =>
        on alt_Value_GncGUID_vector
          (if_same_type_set GncGUID_vector T PlainValue.set_value value) o
    | alt_Multichoice o =>
        on alt_Multichoice (if_same_type_set std_string T Multichoice.set_value value) o
    | alt_Range_int o =>
        on alt_Range_int (if_same_type_set cpp_int T Range.set_value value) o
    | alt_Range_double o =>
        on alt_Range_double (if_same_type_set cpp_double T Range.set_value value) o
    | alt_Validated_QofInstance o =>
        on alt_Validated_QofInstance
          (if_same_type_set QofInstance_ptr T Validated.set_value value) o
    | alt_Date o =>
        on alt_Date (if_same_type_set cpp_int64_t T DateValue.set_value value) o
    end.

(** A visitor that calls an inherited OptionUIItem member. *)
Definition visit_ui {A : Type} (m : M OptionUIItem A) : M GncOption A :=
  fun this =>
    match m_option this with
    | alt_Value_string o => on alt_Value_string (inherited m) o
    | alt_Value_bool o => on alt_Value_bool (inherited m) o
    | alt_Value_int64_t o => on alt_Value_int64_t (inherited m) o
    | alt_Value_QofInstance o => on alt_Value_QofInstance (inherited m) o
    | alt_Value_QofQuery o => on alt_Value_QofQuery (inherited m) o
    | alt_Value_GncGUID_vector o => on alt_Value_GncGUID_vector (inherited m) o
    | alt_Multichoice o => on alt_Multichoice (inherited m) o
    | alt_Range_int o => on alt_Range_int (inherited m) o
    | alt_Range_double o => on alt_Range_double (inherited m) o
    | alt_Validated_QofInstance o => on alt_Validated_QofInstance (inherited m) o
    | alt_Date o => on alt_Date (inherited m) o
    end.

Definition set_ui_item (ui_elem : pointer) : M GncOption unit :=
  visit_ui (UIItem.set_ui_item ui_elem).

Definition get_ui_type : M GncOption GncOptionUIType :=
  visit_ui UIItem.get_ui_type.

Definition get_ui_item : M GncOption pointer :=
  visit_ui UIItem.get_ui_item.

Definition make_internal : M GncOption unit :=
  visit_ui UIItem.make_internal.

(** The classifier of the active alternative, which the four string
    getters read. *)
Definition the_classifier (this : GncOption) : OptionClassifier :=
  match m_option this with
  | alt_Value_string o => PlainValue.classifier o
  | alt_Value_bool o => PlainValue.classifier o
  | alt_Value_int64_t o => PlainValue.classifier o
  | alt_Value_QofInstance o => PlainValue.classifier o
  | alt_Value_QofQuery o => PlainValue.classifier o
  | alt_Value_GncGUID_vector o => PlainValue.classifier o
  | alt_Multichoice o => Multichoice.classifier o
  | alt_Range_int o => Range.classifier o
  | alt_Range_double o => Range.classifier o
  | alt_Validated_QofInstance o => Validated.classifier o
  | alt_Date o => DateValue.classifier o
  end.

Definition get_section : M GncOption string :=
  this <- get ;; ret (m_section (the_classifier this)).
Definition get_name : M GncOption string :=
  this <- get ;; ret (m_name (the_classifier this)).
Definition get_key : M GncOption string :=
  this <- get ;; ret (m_sort_tag (the_classifier this)).
Definition get_docstring : M GncOption string :=
  this <- get ;; ret (m_doc_string (the_classifier this)).

End Option.

(** ** Calls through GncOption *)

(** The six value types for which GncOptionValue<ValueType> is an
    alternative of the variant: the only ones the value constructor of
    GncOption can be instantiated with. *)
Inductive plain_type : Type :=
| plain_string
| plain_bool
| plain_int64_t
| plain_QofInstance
| plain_QofQuery
| plain_GncGUID_vector.

Definition plain_cpp_type (P : plain_type) : cpp_type :=
  match P with
  | plain_string => std_string
  | plain_bool => cpp_bool
  | plain_int64_t => cpp_int64_t
  | plain_QofInstance => QofInstance_ptr
  | plain_QofQuery => QofQuery_ptr
  | plain_GncGUID_vector => GncGUID_vector
  end.

(** template <typename ValueType> GncOption(section, name, key,
    doc_string, value, ui_type): wraps a GncOptionValue<ValueType>;
    [ui_type] defaults to INTERNAL. *)
Definition GncOption_ctor (P : plain_type) (section name key doc_string : string)
    : denote (plain_cpp_type P) -> GncOptionUIType -> Option.GncOption :=
  match P with
  | plain_string => fun value ui_type =>
      Option.wrap (alt_Value_string
                     (PlainValue.ctor section name key doc_string value ui_type))
  | plain_bool => fun value ui_type =>
      Option.wrap (alt_Value_bool
                     (PlainValue.ctor section name key doc_string value ui_type))
  | plain_int64_t => fun value ui_type =>
      Option.wrap (alt_Value_int64_t
                     (PlainValue.ctor section name key doc_string value ui_type))
  | plain_QofInstance => fun value ui_type =>
      Option.wrap (alt_Value_QofInstance
                     (PlainValue.ctor section name key doc_string value ui_type))
  | plain_QofQuery => fun value ui_type =>
      Option.wrap (alt_Value_QofQuery
                     (PlainValue.ctor section name key doc_string value ui_type))
  | plain_GncGUID_vector => fun value ui_type =>
      Option.wrap (alt_Value_GncGUID_vector
                     (PlainValue.ctor section name key doc_string value ui_type))
  end.

(** The member functions of GncOption that can change the option. *)
Inductive GncOption_call : Type :=
| do_set_value (T : cpp_type) (value : denote T)
| do_set_ui_item (ui_elem : pointer)
| do_make_internal.

Definition GncOption_perform (c : GncOption_call) : M Option.GncOption unit :=
  match c with
  | do_set_value T value => Option.set_value T value
  | do_set_ui_item ui_elem => Option.set_ui_item ui_elem
  | do_make_internal => Option.make_internal
  end.

(** The multichoice alternative, when active, holds a vector of a size
    std::vector allows; nothing is asked of the other alternatives. *)
Definition GncOption_vector_size_ok (this : Option.GncOption) : Prop :=
  match Option.m_option this with
  | alt_Multichoice o => Multichoice.vector_size_ok o
  | _ => True
  end.

(** The OptionUIItem base of the active alternative, which the UI
    visitors read and change. *)
Definition the_ui (this : Option.GncOption) : OptionUIItem :=
  match Option.m_option this with
  | alt_Value_string o => PlainValue.ui o
  | alt_Value_bool o => PlainValue.ui o
  | alt_Value_int64_t o => PlainValue.ui o
  | alt_Value_QofInstance o => PlainValue.ui o
  | alt_Value_QofQuery o => PlainValue.ui o
  | alt_Value_GncGUID_vector o => PlainValue.ui o
  | alt_Multichoice o => Multichoice.ui o
  | alt_Range_int o => Range.ui o
  | alt_Range_double o => Range.ui o
  | alt_Validated_QofInstance o => Validated.ui o
  | alt_Date o => DateValue.ui o
  end.

(** The date alternative is the active one. *)
Definition holds_date (this : Option.GncOption) : bool :=
  match Option.m_option this with
  | alt_Date _ => true
  | _ => false
  end.

(** ** gnc_plugin_set_actions_enabled *)

Module Plugin.

(** A GSimpleActionGroup as the loop sees it through GLib: a GActionMap
    from action names to actions, all of them GSimpleActions, of which
    only the enabled state is touched.  [None] is a name with no
    action. *)
Definition GSimpleActionGroup : Type := string -> option bool.

(** What the function leaves behind: the action group, and the messages
    handed to the log by PERR, oldest first, each with the action name it
    was formatted with. *)
Record World : Type := {
  group : GSimpleActionGroup;
  perr_log : list string
}.

(** g_action_map_lookup_action: the action of that name, or NULL. *)
Definition g_action_map_lookup_action (name : string) : M World (option bool) :=
  w <- get ;; ret (group w name).

(** g_simple_action_set_enabled on the action found under [name]. *)
Definition g_simple_action_set_enabled (name : string) (enabled : bool) : M World unit :=
  modify (fun w =>
            {| group := fun n => if String.eqb n name then Some enabled else group w n;
               perr_log := perr_log w |}).

(** PERR("No such action with name '%s' in action group %p)", ...) *)
Definition PERR (name : string) : M World unit :=
  modify (fun w => {| group := group w; perr_log := perr_log w ++ [name] |}).

(** The loop over the NULL-terminated array [action_names], given as the
    list of the strings before the terminator. *)
Fixpoint set_actions_enabled_loop (action_names : list string) (enable : bool)
    : M World unit :=
  match action_names with
  | [] => ret tt
  | name :: rest =>
      action <- g_action_map_lookup_action name ;;
      match action with
      | Some _ => g_simple_action_set_enabled name enable
      | None => PERR name
      end ;;;
      set_actions_enabled_loop rest enable
  end.

(** gnc_plugin_set_actions_enabled; [present] is false when the
    [simple_action_group] argument is NULL, and g_return_if_fail then
    returns before the loop. *)
Definition gnc_plugin_set_actions_enabled (present : bool)
    (action_names : list string) (enable : bool) : M World unit :=
  if present then set_actions_enabled_loop action_names enable else ret tt.

End Plugin.

(** * Properties *)

(** ** The UI binding *)

Module UIItemFacts.

Lemma set_ui_item_internal (o : OptionUIItem) (h : pointer) :
  m_ui_type o = INTERNAL ->
  UIItem.set_ui_item h o =
    (inl (std_logic_error "INTERNAL option, setting the UI item forbidden."), o).
Proof.
  intros Hty. unfold UIItem.set_ui_item, bind, get. rewrite Hty. reflexivity.
Qed.

Lemma make_internal_attached (o : OptionUIItem) :
  m_ui_item o <> nullptr ->
  UIItem.make_internal o =
    (inl (std_logic_error "Option has a UI Element, can't be INTERNAL."), o).
Proof.
  intros Hitem. unfold UIItem.make_internal, bind, get.
  destruct (m_ui_item o) as [|a]; [contradiction|reflexivity].
Qed.

Lemma GncOptionUIType_eqb_eq (a b : GncOptionUIType) :
  GncOptionUIType_eqb a b = true <-> a = b.
Proof.
  split.
  - destruct a, b; simpl; intros E; try reflexivity; discriminate E.
  - intros ->. destruct b; reflexivity.
Qed.

(** One call keeps "INTERNAL options carry no UI item". *)
Lemma perform_keeps_internal_unbound (o : OptionUIItem) (c : UIItem.call) :
  (m_ui_type o = INTERNAL -> m_ui_item o = nullptr) ->
  m_ui_type (after (UIItem.perform c) o) = INTERNAL ->
  m_ui_item (after (UIItem.perform c) o) = nullptr.
Proof.
  intros Inv. destruct o as [item type]. simpl in Inv.
  destruct c as [p| |]; unfold after; simpl.
  - unfold UIItem.set_ui_item, bind, get; simpl.
    destruct (GncOptionUIType_eqb type INTERNAL) eqn:E; simpl.
    + intros _. apply Inv. now apply GncOptionUIType_eqb_eq.
    + intros ->. discriminate E.
  - reflexivity.
  - unfold UIItem.make_internal, bind, get; simpl.
    destruct item as [|a]; simpl; [reflexivity|exact Inv].
Qed.

Lemma reachable_internal_unbound (o : OptionUIItem) :
  UIItem.reachable o -> m_ui_type o = INTERNAL -> m_ui_item o = nullptr.
Proof.
  induction 1 as [ui_type | o c _ IH].
  - reflexivity.
  - now apply perform_keeps_internal_unbound.
Qed.

(** A successful make_internal of the wrapper leaves an option on which
    set_ui_item throws, whichever alternative is active. *)
Lemma option_internal_then_set (this this' : Option.GncOption) (h : pointer) :
  Option.make_internal this = (inr tt, this') ->
  Option.set_ui_item h this' =
    (inl (std_logic_error "INTERNAL option, setting the UI item forbidden."), this').
Proof.
  destruct this as [v].
  unfold Option.make_internal, Option.set_ui_item, Option.visit_ui.
  destruct v as [o|o|o|o|o|o|o|o|o|o|o]; simpl;
    destruct o; simpl;
    match goal with u : OptionUIItem |- _ => destruct u as [item type] end;
    unfold Option.on, inherited, within, UIItem.make_internal, bind, get; simpl;
    destruct item; simpl; intros E; inversion E; subst; reflexivity.
Qed.

End UIItemFacts.

(** C2, as the header has it.  In every state that the constructor and
    the calls set_ui_item, clear_ui_item and make_internal can bring
    about, an option whose UI type is INTERNAL holds no UI item (the
    converse is not an invariant: an option of any other UI type holds
    none until one is set, and after clear_ui_item).  set_ui_item throws
    std::logic_error on an INTERNAL option and make_internal throws
    std::logic_error on an option that holds a UI item, both leaving the
    option as it was; and through GncOption, for every alternative, a
    make_internal that returned is followed by a set_ui_item that
    throws. *)
Theorem ui_binding_internal_has_no_item :
  (forall o, UIItem.reachable o -> m_ui_type o = INTERNAL -> m_ui_item o = nullptr) /\
  (forall o h, m_ui_type o = INTERNAL ->
     UIItem.set_ui_item h o =
       (inl (std_logic_error "INTERNAL option, setting the UI item forbidden."), o)) /\
  (forall o, m_ui_item o <> nullptr ->
     UIItem.make_internal o =
       (inl (std_logic_error "Option has a UI Element, can't be INTERNAL."), o)) /\
  (forall this this' h, Option.make_internal this = (inr tt, this') ->
     Option.set_ui_item h this' =
       (inl (std_logic_error "INTERNAL option, setting the UI item forbidden."), this')).
Proof.
  split; [|split; [|split]].
  - exact UIItemFacts.reachable_internal_unbound.
  - intros o h. apply UIItemFacts.set_ui_item_internal.
  - exact UIItemFacts.make_internal_attached.
  - exact UIItemFacts.option_internal_then_set.
Qed.

(** C2 as stated fails: a freshly constructed BOOLEAN option is reachable,
    holds no UI item, and is not INTERNAL. *)
Lemma ui_binding_iff_fails_on_fresh_boolean :
  UIItem.reachable (UIItem.ctor BOOLEAN) /\
  ~ (m_ui_type (UIItem.ctor BOOLEAN) = INTERNAL <->
     m_ui_item (UIItem.ctor BOOLEAN) = nullptr).
Proof.
  split.
  - constructor.
  - intros [_ H]. specialize (H eq_refl). discriminate H.
Qed.

Lemma ui_binding_internal_has_no_item_witness :
  m_ui_item (after UIItem.make_internal (UIItem.ctor DATE)) = nullptr /\
  UIItem.set_ui_item (address 1) (UIItem.ctor INTERNAL) =
    (inl (std_logic_error "INTERNAL option, setting the UI item forbidden."),
     UIItem.ctor INTERNAL) /\
  UIItem.make_internal (after (UIItem.set_ui_item (address 1)) (UIItem.ctor DATE)) =
    (inl (std_logic_error "Option has a UI Element, can't be INTERNAL."),
     after (UIItem.set_ui_item (address 1)) (UIItem.ctor DATE)) /\
  Option.set_ui_item (address 1)
    (after Option.make_internal
       (Option.wrap (alt_Date (DateValue.ctor 0%Z "Report" "Date" "a" "")))) =
    (inl (std_logic_error "INTERNAL option, setting the UI item forbidden."),
     after Option.make_internal
       (Option.wrap (alt_Date (DateValue.ctor 0%Z "Report" "Date" "a" "")))).
Proof.
  destruct ui_binding_internal_has_no_item as (Inv & Hset & Hmake & Hopt).
  split; [|split; [|split]].
  - apply Inv; [|reflexivity].
    apply (UIItem.reach_call _ UIItem.call_make_internal). constructor.
  - apply Hset. reflexivity.
  - apply Hmake. discriminate.
  - apply (Hopt (Option.wrap (alt_Date (DateValue.ctor 0%Z "Report" "Date" "a" "")))).
    reflexivity.
Defined.

(** ** Range options *)

Module RangeFacts.
Section Template.
Context {ValueType : Type} `{Comparable ValueType}.

(** [value >= min && value <= max] decides [min <= value <= max]. *)
Lemma in_range_spec (value min max : ValueType) :
  ge_op value min && le_op value max = true <->
  le_rel min value /\ le_rel value max.
Proof.
  rewrite andb_true_iff, ge_op_spec, le_op_spec. reflexivity.
Qed.

Lemma out_of_range_spec (value min max : ValueType) :
  ge_op value min && le_op value max = false <->
  ~ (le_rel min value /\ le_rel value max).
Proof.
  rewrite <- in_range_spec.
  destruct (ge_op value min && le_op value max); split;
    intros E; try reflexivity; try discriminate E; try (intros E'; discriminate E').
  exfalso. apply E. reflexivity.
Qed.
End Template.
End RangeFacts.

(** C5.  A range option constructed with value [v] and bounds [min],
    [max]: when [min <= v <= max], get_value and get_default_value both
    return [v]; otherwise both return [min].  The constructor never
    throws.  This holds for any value type with [>=] and [<=], so for the
    int and the double instantiation. *)
Theorem range_ctor_keeps_or_falls_back_to_min
    {ValueType : Type} `{Comparable ValueType}
    (section name key doc_string : string) (v min max step : ValueType) :
  (le_rel min v /\ le_rel v max ->
     Range.get_value (Range.ctor section name key doc_string v min max step) =
       (inr v, Range.ctor section name key doc_string v min max step) /\
     Range.get_default_value (Range.ctor section name key doc_string v min max step) =
       (inr v, Range.ctor section name key doc_string v min max step)) /\
  (~ (le_rel min v /\ le_rel v max) ->
     Range.get_value (Range.ctor section name key doc_string v min max step) =
       (inr min, Range.ctor section name key doc_string v min max step) /\
     Range.get_default_value (Range.ctor section name key doc_string v min max step) =
       (inr min, Range.ctor section name key doc_string v min max step)).
Proof.
  split; intros Hr.
  - apply RangeFacts.in_range_spec in Hr.
    unfold Range.get_value, Range.get_default_value, Range.ctor, bind, get, ret; simpl.
    rewrite Hr. split; reflexivity.
  - apply RangeFacts.out_of_range_spec in Hr.
    unfold Range.get_value, Range.get_default_value, Range.ctor, bind, get, ret; simpl.
    rewrite Hr. split; reflexivity.
Qed.

Lemma range_ctor_keeps_or_falls_back_to_min_witness :
  (Range.get_value (Range.ctor "Plot" "Width" "a" "" 5 0 10 1) =
     (inr 5, Range.ctor "Plot" "Width" "a" "" 5 0 10 1) /\
   Range.get_default_value (Range.ctor "Plot" "Width" "a" "" 5 0 10 1) =
     (inr 5, Range.ctor "Plot" "Width" "a" "" 5 0 10 1))%Z /\
  (Range.get_value (Range.ctor "Plot" "Width" "a" "" 15 0 10 1) =
     (inr 0, Range.ctor "Plot" "Width" "a" "" 15 0 10 1) /\
   Range.get_default_value (Range.ctor "Plot" "Width" "a" "" 15 0 10 1) =
     (inr 0, Range.ctor "Plot" "Width" "a" "" 15 0 10 1))%Z.
Proof.
  split.
  - apply (proj1 (range_ctor_keeps_or_falls_back_to_min (ValueType := int)
                    "Plot" "Width" "a" "" 5 0 10 1)%Z).
    simpl. lia.
  - apply (proj2 (range_ctor_keeps_or_falls_back_to_min (ValueType := int)
                    "Plot" "Width" "a" "" 15 0 10 1)%Z).
    simpl. lia.
Defined.

(** C6.  On any range option, set_value(v) with [v] outside
    [m_min, m_max] throws std::invalid_argument "Validation failed, value
    not set." and leaves the whole option, so its value and its default,
    as it was; with [v] inside, it returns, the stored value is [v] and
    nothing else has changed. *)
Theorem range_set_value_rejects_outside_accepts_inside
    {ValueType : Type} `{Comparable ValueType}
    (o : Range.GncOptionRangeValue ValueType) (v : ValueType) :
  (~ (le_rel (Range.m_min o) v /\ le_rel v (Range.m_max o)) ->
     Range.set_value v o =
       (inl (std_invalid_argument "Validation failed, value not set."), o)) /\
  (le_rel (Range.m_min o) v /\ le_rel v (Range.m_max o) ->
     exists o', Range.set_value v o = (inr tt, o') /\
                Range.get_value o' = (inr v, o') /\
                Range.get_default_value o' = (inr (Range.m_default_value o), o') /\
                Range.m_min o' = Range.m_min o /\
                Range.m_max o' = Range.m_max o /\
                Range.m_step o' = Range.m_step o /\
                Range.classifier o' = Range.classifier o /\
                Range.ui o' = Range.ui o).
Proof.
  split; intros Hr.
  - apply RangeFacts.out_of_range_spec in Hr.
    unfold Range.set_value, Range.validate, bind, get, ret. rewrite Hr. reflexivity.
  - apply RangeFacts.in_range_spec in Hr.
    unfold Range.set_value, Range.validate, bind, get, ret. rewrite Hr.
    eexists. split; [reflexivity|]. simpl. repeat split; reflexivity.
Qed.

Lemma range_set_value_rejects_outside_accepts_inside_witness :
  Range.set_value 15%Z (Range.ctor "Plot" "Width" "a" "" 5 0 10 1)%Z =
    (inl (std_invalid_argument "Validation failed, value not set."),
     (Range.ctor "Plot" "Width" "a" "" 5 0 10 1)%Z) /\
  exists o', Range.set_value 7%Z (Range.ctor "Plot" "Width" "a" "" 5 0 10 1)%Z =
               (inr tt, o') /\
             Range.get_value o' = (inr 7%Z, o').
Proof.
  split.
  - apply (proj1 (range_set_value_rejects_outside_accepts_inside
                    (Range.ctor "Plot" "Width" "a" "" 5 0 10 1)%Z 15%Z)).
    simpl. lia.
  - destruct (proj2 (range_set_value_rejects_outside_accepts_inside
                       (Range.ctor "Plot" "Width" "a" "" 5 0 10 1)%Z 7%Z))
      as (o' & Hset & Hget & _).
    + simpl. lia.
    + exists o'. split; assumption.
Defined.

(** ** Validated options *)

Module ValidatedFacts.
Section Template.
Context {ValueType : Type}.

(** A constructor that returned was given a validator that holds a
    target, and the target accepted the initial value. *)
Lemma ctor_inr (section name key doc_string : string) (value : ValueType)
    (validator : std_function ValueType bool) (ui_type : GncOptionUIType)
    (o : Validated.GncOptionValidatedValue ValueType) :
  Validated.ctor section name key doc_string value validator ui_type = inr o ->
  exists target,
    validator = Some target /\
    target value = true /\
    Validated.m_value o = value /\
    Validated.m_default_value o = value /\
    Validated.m_validator o = Some target.
Proof.
  unfold Validated.ctor, Validated.validate, invoke, bind, get, ret, throw; simpl.
  destruct validator as [target|]; simpl; [|discriminate].
  destruct (target value) eqn:Hv; simpl; intros E; inversion E; subst; simpl.
  exists target. repeat split; assumption || reflexivity.
Qed.

Lemma set_value_accepts (o : Validated.GncOptionValidatedValue ValueType)
    (target : ValueType -> bool) (x : ValueType) :
  Validated.m_validator o = Some target ->
  target x = true ->
  Validated.set_value x o =
    (inr tt,
     {| Validated.classifier := Validated.classifier o;
        Validated.ui := Validated.ui o;
        Validated.m_value := x;
        Validated.m_default_value := Validated.m_default_value o;
        Validated.m_validator := Validated.m_validator o;
        Validated.m_validation_data := Validated.m_validation_data o |}).
Proof.
  intros Hf Hx. destruct o as [c u v d f vd]. simpl in Hf. subst f.
  unfold Validated.set_value, Validated.validate, invoke, bind, get, ret. simpl.
  rewrite Hx. reflexivity.
Qed.

Lemma set_value_rejects (o : Validated.GncOptionValidatedValue ValueType)
    (target : ValueType -> bool) (x : ValueType) :
  Validated.m_validator o = Some target ->
  target x = false ->
  Validated.set_value x o =
    (inl (std_invalid_argument "Validation failed, value not set."), o).
Proof.
  intros Hf Hx. destruct o as [c u v d f vd]. simpl in Hf. subst f.
  unfold Validated.set_value, Validated.validate, invoke, bind, get, ret. simpl.
  rewrite Hx. reflexivity.
Qed.

(** One set_value, caught or not, keeps the validator and the default,
    and keeps the stored value acceptable. *)
Lemma set_value_keeps (o : Validated.GncOptionValidatedValue ValueType)
    (target : ValueType -> bool) (x : ValueType) :
  Validated.m_validator o = Some target ->
  Validated.m_validator (after (Validated.set_value x) o) = Some target /\
  Validated.m_default_value (after (Validated.set_value x) o) =
    Validated.m_default_value o /\
  (target (Validated.m_value o) = true ->
   target (Validated.m_value (after (Validated.set_value x) o)) = true).
Proof.
  intros Hf. unfold after.
  destruct (target x) eqn:Hx.
  - rewrite (set_value_accepts o target x Hf Hx). simpl. auto.
  - rewrite (set_value_rejects o target x Hf Hx). simpl. auto.
Qed.

Lemma after_all_set_value_keeps (xs : list ValueType)
    (o : Validated.GncOptionValidatedValue ValueType)
    (target : ValueType -> bool) :
  Validated.m_validator o = Some target ->
  Validated.m_validator (after_all (map Validated.set_value xs) o) = Some target /\
  Validated.m_default_value (after_all (map Validated.set_value xs) o) =
    Validated.m_default_value o /\
  (target (Validated.m_value o) = true ->
   target (Validated.m_value (after_all (map Validated.set_value xs) o)) = true).
Proof.
  revert o. induction xs as [|x xs IH]; intros o Hf; simpl.
  - auto.
  - destruct (set_value_keeps o target x Hf) as (Hv & Hd & Hok).
    destruct (IH (after (Validated.set_value x) o) Hv) as (Hv' & Hd' & Hok').
    rewrite Hd in Hd'. auto.
Qed.
End Template.
End ValidatedFacts.

(** C7.  A validated option that its constructor produced holds a
    validator with a target, and after any sequence of set_value calls
    (those that throw being caught): the stored value satisfies the
    validator; a further set_value with a value the validator refuses
    throws std::invalid_argument and leaves the option, so its stored
    value, exactly as it was; and one with a value the validator accepts
    returns with that value stored. *)
Theorem validated_value_always_passes_validator {ValueType : Type}
    (section name key doc_string : string) (value : ValueType)
    (validator : std_function ValueType bool) (ui_type : GncOptionUIType)
    (o : Validated.GncOptionValidatedValue ValueType) (xs : list ValueType) :
  Validated.ctor section name key doc_string value validator ui_type = inr o ->
  exists target,
    validator = Some target /\
    target (Validated.m_value (after_all (map Validated.set_value xs) o)) = true /\
    (forall x, target x = false ->
       Validated.set_value x (after_all (map Validated.set_value xs) o) =
         (inl (std_invalid_argument "Validation failed, value not set."),
          after_all (map Validated.set_value xs) o)) /\
    (forall x, target x = true ->
       exists o', Validated.set_value x (after_all (map Validated.set_value xs) o) =
                    (inr tt, o') /\
                  Validated.get_value o' = (inr x, o')).
Proof.
  intros Hctor.
  destruct (ValidatedFacts.ctor_inr _ _ _ _ _ _ _ _ Hctor)
    as (target & Hsome & Hok & Hval & _ & Hfun).
  destruct (ValidatedFacts.after_all_set_value_keeps xs o target Hfun)
    as (Hv & _ & Hinv).
  rewrite Hval in Hinv.
  exists target. split; [exact Hsome|]. split; [|split].
  - exact (Hinv Hok).
  - intros x Hx. now apply ValidatedFacts.set_value_rejects with target.
  - intros x Hx. eexists. split.
    + now apply ValidatedFacts.set_value_accepts with target.
    + reflexivity.
Qed.

Lemma validated_value_always_passes_validator_witness :
  exists o,
    Validated.ctor "Report" "Count" "a" "" 1%Z (Some (fun x => (0 <? x)%Z)) INTERNAL =
      inr o /\
    exists target,
      Some (fun x => (0 <? x)%Z) = Some target /\
      target (Validated.m_value
                (after_all (map Validated.set_value [(-1)%Z; 5%Z; 0%Z]) o)) = true.
Proof.
  eexists. split; [reflexivity|].
  destruct (validated_value_always_passes_validator
              "Report" "Count" "a" "" 1%Z (Some (fun x => (0 <? x)%Z)) INTERNAL _
              [(-1)%Z; 5%Z; 0%Z] eq_refl) as (target & Hsome & Hinv & _).
  exists target. split; assumption.
Defined.

(** C8.  Constructing a validated option with a value for which the
    validator returns false throws std::invalid_argument "Attempt to
    create GncValidatedOption with bad value." and yields no option; with
    a value for which it returns true the constructor yields an option
    whose value and default are that value. *)
Theorem validated_ctor_checks_initial_value {ValueType : Type}
    (section name key doc_string : string) (value : ValueType)
    (target : ValueType -> bool) (ui_type : GncOptionUIType) :
  (target value = false ->
     Validated.ctor section name key doc_string value (Some target) ui_type =
       inl (std_invalid_argument
              "Attempt to create GncValidatedOption with bad value.")) /\
  (target value = true ->
     exists o,
       Validated.ctor section name key doc_string value (Some target) ui_type =
         inr o /\
       Validated.get_value o = (inr value, o) /\
       Validated.get_default_value o = (inr value, o)).
Proof.
  unfold Validated.ctor, Validated.validate, invoke, bind, get, ret, throw; simpl.
  split; intros Hv; rewrite Hv; simpl.
  - reflexivity.
  - eexists. split; [reflexivity|]. split; reflexivity.
Qed.

Lemma validated_ctor_checks_initial_value_witness :
  Validated.ctor "Report" "Count" "a" "" (-1)%Z (Some (fun x => (0 <? x)%Z)) INTERNAL =
    inl (std_invalid_argument "Attempt to create GncValidatedOption with bad value.") /\
  exists o,
    Validated.ctor "Report" "Count" "a" "" 1%Z (Some (fun x => (0 <? x)%Z)) INTERNAL =
      inr o /\
    Validated.get_value o = (inr 1%Z, o).
Proof.
  split.
  - apply (proj1 (validated_ctor_checks_initial_value
                    "Report" "Count" "a" "" (-1)%Z (fun x => (0 <? x)%Z) INTERNAL)).
    reflexivity.
  - destruct (proj2 (validated_ctor_checks_initial_value
                       "Report" "Count" "a" "" 1%Z (fun x => (0 <? x)%Z) INTERNAL))
      as (o & Hctor & Hget & _).
    + reflexivity.
    + exists o. split; assumption.
Defined.

(** ** Multichoice options *)

Module MultichoiceFacts.

Lemma find_if_le {A : Type} (pred : A -> bool) (v : list A) :
  find_if pred v <= length v.
Proof.
  induction v as [|x v IH]; simpl; [lia|].
  destruct (pred x); lia.
Qed.

(** No element satisfies the predicate: find_if returns end(). *)
Lemma find_if_none {A : Type} (pred : A -> bool) (v : list A) :
  (forall x, In x v -> pred x = false) -> find_if pred v = length v.
Proof.
  induction v as [|x v IH]; simpl; intros Hno; [reflexivity|].
  rewrite (Hno x (or_introl eq_refl)). f_equal. apply IH.
  intros y Hy. apply Hno. now right.
Qed.

(** Some element satisfies the predicate: find_if points at the first
    one. *)
Lemma find_if_first {A : Type} (pred : A -> bool) (v : list A) :
  (exists x, In x v /\ pred x = true) ->
  find_if pred v < length v /\
  (exists x, nth_error v (find_if pred v) = Some x /\ pred x = true) /\
  (forall j y, j < find_if pred v -> nth_error v j = Some y -> pred y = false).
Proof.
  induction v as [|x v IH]; simpl; intros (y & Hin & Hy); [contradiction|].
  destruct (pred x) eqn:Hx.
  - split; [lia|]. split; [exists x; simpl; auto|]. intros j z Hj. lia.
  - destruct Hin as [->|Hin]; [congruence|].
    destruct (IH (ex_intro _ y (conj Hin Hy))) as (Hlt & Hat & Hbefore).
    split; [lia|]. split; [exact Hat|].
    intros [|j] z Hj; simpl.
    + intros E. inversion E; subst. exact Hx.
    + apply Hbefore. lia.
Qed.

Lemma key_eqb_false (e : GncMultiChoiceOptionEntry) (key : string) :
  String.eqb (get_0 e) key = false <-> get_0 e <> key.
Proof. apply String.eqb_neq. Qed.

(** find_key on a key that no entry has. *)
Lemma find_key_absent (o : Multichoice.GncOptionMultichoiceValue) (key : string) :
  (forall e, In e (Multichoice.m_choices o) -> get_0 e <> key) ->
  Multichoice.find_key key o = (inr size_t_max, o).
Proof.
  intros Hno. unfold Multichoice.find_key, bind, get.
  rewrite find_if_none.
  - rewrite Nat.eqb_refl. reflexivity.
  - intros e He. apply key_eqb_false. now apply Hno.
Qed.

(** find_key on a key that some entry has: the position of the first
    such entry, which is not the sentinel. *)
Lemma find_key_present (o : Multichoice.GncOptionMultichoiceValue) (key : string) :
  Multichoice.vector_size_ok o ->
  (exists e, In e (Multichoice.m_choices o) /\ get_0 e = key) ->
  exists i,
    Multichoice.first_with_key key (Multichoice.m_choices o) i /\
    i < length (Multichoice.m_choices o) /\
    N.of_nat i <> size_t_max /\
    Multichoice.find_key key o = (inr (N.of_nat i), o).
Proof.
  intros Hsize (e & Hin & Hkey).
  set (pred := fun choice : GncMultiChoiceOptionEntry => String.eqb (get_0 choice) key).
  destruct (find_if_first pred (Multichoice.m_choices o)) as (Hlt & (x & Hx & Hpx) & Hbefore).
  { exists e. split; [exact Hin|]. unfold pred. now apply String.eqb_eq. }
  unfold Multichoice.vector_size_ok, size_t_max in Hsize.
  exists (find_if pred (Multichoice.m_choices o)).
  split; [|split; [|split]].
  - split.
    + exists x. split; [exact Hx|]. now apply String.eqb_eq.
    + intros j y Hj Hy. apply key_eqb_false. exact (Hbefore j y Hj Hy).
  - exact Hlt.
  - unfold size_t_max. lia.
  - unfold Multichoice.find_key, bind, get. fold pred.
    destruct (Nat.eqb_spec (find_if pred (Multichoice.m_choices o))
                (length (Multichoice.m_choices o))) as [E|_]; [lia|].
    simpl. unfold ret. rewrite N.mod_small; [reflexivity|lia].
Qed.

(** vector::at inside the vector. *)
Lemma vector_at_in_range {Obj A : Type} (v : list A) (i : nat) (x : A) (o : Obj) :
  nth_error v i = Some x -> vector_at v (N.of_nat i) o = (inr x, o).
Proof.
  intros Hx. unfold vector_at.
  assert (i < length v) as Hlt by (apply nth_error_Some; congruence).
  destruct (N.leb_spec (N.of_nat (length v)) (N.of_nat i)) as [Hle|_]; [lia|].
  rewrite Nat2N.id, Hx. reflexivity.
Qed.

End MultichoiceFacts.

(** C9.  On any multichoice option and for any key that no entry has:
    permissible_value_index(key) returns the sentinel
    std::numeric_limits<std::size_t>::max() and does not throw, and
    set_value(key) throws std::invalid_argument "Value not a valid
    choice." leaving the option, so the selected index, as it was. *)
Theorem multichoice_unknown_key_sentinel_and_rejected
    (o : Multichoice.GncOptionMultichoiceValue) (key : string) :
  (forall e, In e (Multichoice.m_choices o) -> get_0 e <> key) ->
  Multichoice.permissible_value_index key o = (inr size_t_max, o) /\
  Multichoice.set_value key o =
    (inl (std_invalid_argument "Value not a valid choice."), o).
Proof.
  intros Hno. split.
  - unfold Multichoice.permissible_value_index.
    now apply MultichoiceFacts.find_key_absent.
  - unfold Multichoice.set_value, bind.
    rewrite (MultichoiceFacts.find_key_absent o key Hno). reflexivity.
Qed.

Lemma multichoice_unknown_key_sentinel_and_rejected_witness :
  Multichoice.permissible_value_index "c"
      (Multichoice.ctor "Report" "Style" "a" ""
         [("a", "Alpha", ""); ("b", "Beta", "")] MULTICHOICE) =
    (inr 18446744073709551615%N,
     Multichoice.ctor "Report" "Style" "a" ""
       [("a", "Alpha", ""); ("b", "Beta", "")] MULTICHOICE) /\
  Multichoice.set_value "c"
      (Multichoice.ctor "Report" "Style" "a" ""
         [("a", "Alpha", ""); ("b", "Beta", "")] MULTICHOICE) =
    (inl (std_invalid_argument "Value not a valid choice."),
     Multichoice.ctor "Report" "Style" "a" ""
       [("a", "Alpha", ""); ("b", "Beta", "")] MULTICHOICE).
Proof.
  apply (multichoice_unknown_key_sentinel_and_rejected
           (Multichoice.ctor "Report" "Style" "a" ""
              [("a", "Alpha", ""); ("b", "Beta", "")] MULTICHOICE) "c").
  simpl. intros e [<-|[<-|[]]]; simpl; discriminate.
Defined.

(** C10.  On a multichoice option and for a key that some entry has,
    once or several times: set_value(key) returns, the selected index is
    the position of the first entry with that key in declaration order,
    nothing else changes, and get_value() then returns exactly that key.
    The size of the vector is within what std::vector allows. *)
Theorem multichoice_set_value_selects_first_match
    (o : Multichoice.GncOptionMultichoiceValue) (key : string) :
  Multichoice.vector_size_ok o ->
  (exists e, In e (Multichoice.m_choices o) /\ get_0 e = key) ->
  exists i o',
    Multichoice.first_with_key key (Multichoice.m_choices o) i /\
    Multichoice.set_value key o = (inr tt, o') /\
    Multichoice.m_value o' = N.of_nat i /\
    Multichoice.m_default_value o' = Multichoice.m_default_value o /\
    Multichoice.m_choices o' = Multichoice.m_choices o /\
    Multichoice.classifier o' = Multichoice.classifier o /\
    Multichoice.ui o' = Multichoice.ui o /\
    Multichoice.get_value o' = (inr key, o').
Proof.
  intros Hsize Hin.
  destruct (MultichoiceFacts.find_key_present o key Hsize Hin)
    as (i & Hfirst & Hlt & Hnot & Hfind).
  exists i. eexists. split; [exact Hfirst|]. split.
  - unfold Multichoice.set_value, bind. rewrite Hfind.
    destruct (N.eqb_spec (N.of_nat i) size_t_max) as [E|_]; [contradiction|].
    reflexivity.
  - simpl. repeat (split; [reflexivity|]).
    destruct Hfirst as ((e & He & Hkey) & _).
    unfold Multichoice.get_value, bind, get. simpl.
    rewrite (MultichoiceFacts.vector_at_in_range _ _ _ _ He).
    unfold ret. rewrite Hkey. reflexivity.
Qed.

Lemma multichoice_set_value_selects_first_match_witness :
  exists i o',
    Multichoice.first_with_key "b" [("a", "Alpha", ""); ("b", "Beta", ""); ("b", "Again", "")] i /\
    Multichoice.set_value "b"
      (Multichoice.ctor "Report" "Style" "a" ""
         [("a", "Alpha", ""); ("b", "Beta", ""); ("b", "Again", "")] MULTICHOICE) =
      (inr tt, o') /\
    Multichoice.m_value o' = N.of_nat i /\
    Multichoice.get_value o' = (inr "b", o').
Proof.
  destruct (multichoice_set_value_selects_first_match
              (Multichoice.ctor "Report" "Style" "a" ""
                 [("a", "Alpha", ""); ("b", "Beta", ""); ("b", "Again", "")] MULTICHOICE)
              "b") as (i & o' & Hfirst & Hset & Hidx & _ & _ & _ & _ & Hget).
  - unfold Multichoice.vector_size_ok. simpl. vm_compute. discriminate.
  - exists ("b", "Beta", ""). simpl. auto.
  - exists i, o'. simpl in Hfirst. auto.
Defined.

(** ** The GncOption wrapper *)

(** C1.  For every GncOption, whichever alternative is active, and every
    requested type [T] other than the value type of that alternative:
    get_value<T>() returns [T{}] and does not throw, and set_value<T>(x)
    returns without touching the option; the wrapped object (value,
    default, classifier, UI binding) is the same afterwards. *)
Theorem option_mismatched_type_reads_default_and_ignores_set
    (now : time64) (relative_date : DateType -> RelativeDatePeriod -> time64 -> time64)
    (this : Option.GncOption) (T : cpp_type) :
  T <> value_type (Option.m_option this) ->
  Option.get_value now relative_date T this = (inr (value_init T), this) /\
  (forall x : denote T, Option.set_value T x this = (inr tt, this)).
Proof.
  destruct this as [v].
  destruct v as [o|o|o|o|o|o|o|o|o|o|o]; destruct T; simpl; intros Hne;
    try (exfalso; apply Hne; reflexivity);
    (split; [reflexivity | intros x; reflexivity]).
Qed.

Lemma option_mismatched_type_reads_default_and_ignores_set_witness :
  Option.get_value 0%Z (fun _ _ t => t) cpp_bool
      (Option.wrap (alt_Multichoice
                      (Multichoice.ctor "Report" "Style" "a" "" [] MULTICHOICE))) =
    (inr false,
     Option.wrap (alt_Multichoice
                    (Multichoice.ctor "Report" "Style" "a" "" [] MULTICHOICE))) /\
  Option.set_value cpp_bool true
      (Option.wrap (alt_Multichoice
                      (Multichoice.ctor "Report" "Style" "a" "" [] MULTICHOICE))) =
    (inr tt,
     Option.wrap (alt_Multichoice
                    (Multichoice.ctor "Report" "Style" "a" "" [] MULTICHOICE))).
Proof.
  destruct (option_mismatched_type_reads_default_and_ignores_set
              0%Z (fun _ _ t => t)
              (Option.wrap (alt_Multichoice
                              (Multichoice.ctor "Report" "Style" "a" "" [] MULTICHOICE)))
              cpp_bool) as (Hget & Hset).
  - simpl. discriminate.
  - split; [exact Hget | exact (Hset true)].
Defined.

(** ** Defaults and reads *)

Module ReadFacts.

(** set_value of a plain option keeps the default. *)
Lemma plain_after_all_default {ValueType : Type} (xs : list ValueType)
    (o : PlainValue.GncOptionValue ValueType) :
  PlainValue.m_default_value (after_all (map PlainValue.set_value xs) o) =
    PlainValue.m_default_value o.
Proof.
  revert o. induction xs as [|x xs IH]; intros o; simpl; [reflexivity|].
  rewrite IH. reflexivity.
Qed.

(** set_value of a range option, caught or not, keeps the default. *)
Lemma range_after_all_default {ValueType : Type} `{Comparable ValueType}
    (xs : list ValueType) (o : Range.GncOptionRangeValue ValueType) :
  Range.m_default_value (after_all (map Range.set_value xs) o) =
    Range.m_default_value o.
Proof.
  revert o. induction xs as [|x xs IH]; intros o; simpl; [reflexivity|].
  rewrite IH. unfold after, Range.set_value, Range.validate, bind, get, ret.
  destruct (ge_op x (Range.m_min o) && le_op x (Range.m_max o)); reflexivity.
Qed.

(** set_value of a multichoice option, caught or not, keeps the default
    index and the choices. *)
Lemma multichoice_set_value_keeps (o : Multichoice.GncOptionMultichoiceValue)
    (key : string) :
  Multichoice.m_default_value (after (Multichoice.set_value key) o) =
    Multichoice.m_default_value o /\
  Multichoice.m_choices (after (Multichoice.set_value key) o) =
    Multichoice.m_choices o.
Proof.
  unfold after, Multichoice.set_value, Multichoice.find_key, bind, get, ret.
  destruct (negb (Nat.eqb _ _)); simpl;
    try match goal with
        | |- context [negb (N.eqb ?a ?b)] => destruct (negb (N.eqb a b))
        end;
    simpl; auto.
Qed.

Lemma multichoice_after_all_keeps (keys : list string)
    (o : Multichoice.GncOptionMultichoiceValue) :
  Multichoice.m_default_value (after_all (map Multichoice.set_value keys) o) =
    Multichoice.m_default_value o /\
  Multichoice.m_choices (after_all (map Multichoice.set_value keys) o) =
    Multichoice.m_choices o.
Proof.
  revert o. induction keys as [|key keys IH]; intros o; simpl; [auto|].
  destruct (IH (after (Multichoice.set_value key) o)) as (Hd & Hc).
  destruct (multichoice_set_value_keeps o key) as (Hd' & Hc').
  rewrite Hd, Hc. auto.
Qed.

Lemma multichoice_perform_indices_ok (o : Multichoice.GncOptionMultichoiceValue)
    (c : Multichoice.call) :
  Multichoice.indices_ok o -> Multichoice.indices_ok (after (Multichoice.perform c) o).
Proof.
  intros (Hd & Hv). destruct c as [key|c]; simpl.
  - unfold Multichoice.indices_ok.
    destruct (multichoice_set_value_keeps o key) as (Hd' & Hc').
    rewrite Hd', Hc'. split; [exact Hd|].
    unfold after, Multichoice.set_value, Multichoice.find_key, bind, get, ret.
    pose proof (MultichoiceFacts.find_if_le
                  (fun choice => String.eqb (get_0 choice) key)
                  (Multichoice.m_choices o)) as Hle.
    destruct (Nat.eqb_spec
                (find_if (fun choice => String.eqb (get_0 choice) key)
                   (Multichoice.m_choices o))
                (length (Multichoice.m_choices o))) as [E|Hne]; simpl.
    + exact Hv.
    + match goal with |- context [negb (N.eqb ?a ?b)] => destruct (negb (N.eqb a b)) end;
        simpl; [|exact Hv].
      right. eapply N.le_lt_trans; [apply N.Div0.mod_le|]. lia.
  - unfold Multichoice.indices_ok, after, inherited, within. simpl.
    destruct (UIItem.perform c (Multichoice.ui o)) as [r u]. simpl.
    split; assumption.
Qed.

Lemma constructible_indices_ok (o : Multichoice.GncOptionMultichoiceValue) :
  Multichoice.constructible o -> Multichoice.indices_ok o.
Proof.
  induction 1 as [section name key doc_string choices ui_type | o c _ IH].
  - split; [reflexivity|left; reflexivity].
  - now apply multichoice_perform_indices_ok.
Qed.

(** vector::at past the end. *)
Lemma vector_at_empty {Obj A : Type} (n : size_t) (o : Obj) :
  vector_at (@nil A) n o = (inl std_out_of_range, o).
Proof. unfold vector_at. simpl. destruct n; reflexivity. Qed.

Lemma vector_at_below_size {Obj A : Type} (v : list A) (n : size_t) (o : Obj) :
  (n < N.of_nat (length v))%N -> exists x, vector_at v n o = (inr x, o).
Proof.
  intros Hlt.
  destruct (nth_error v (N.to_nat n)) as [x|] eqn:Hx.
  - exists x. rewrite <- (N2Nat.id n).
    now apply MultichoiceFacts.vector_at_in_range.
  - apply nth_error_None in Hx. lia.
Qed.

End ReadFacts.

(** C3, as the header has it.  For plain, validated, range and
    multichoice options the default is fixed by the constructor:
    get_default_value(), after any sequence of set_value calls (those
    that throw being caught), has the outcome it had right after
    construction and leaves the option alone.  That outcome is the
    constructor's value (plain, validated), the value or [min] (range),
    and the key of entry 0, or std::out_of_range when there are no
    entries (multichoice).  A date option stores no default: its
    get_default_value() returns the time at which it is called. *)
Theorem default_value_fixed_except_for_date :
  (forall (ValueType : Type) (section name key doc_string : string)
          (value : ValueType) (ui_type : GncOptionUIType) (xs : list ValueType),
     PlainValue.get_default_value
         (after_all (map PlainValue.set_value xs)
            (PlainValue.ctor section name key doc_string value ui_type)) =
       (inr value,
        after_all (map PlainValue.set_value xs)
          (PlainValue.ctor section name key doc_string value ui_type))) /\
  (forall (ValueType : Type) (section name key doc_string : string)
          (value : ValueType) (validator : std_function ValueType bool)
          (ui_type : GncOptionUIType) (o : Validated.GncOptionValidatedValue ValueType)
          (xs : list ValueType),
     Validated.ctor section name key doc_string value validator ui_type = inr o ->
     Validated.get_default_value (after_all (map Validated.set_value xs) o) =
       (inr value, after_all (map Validated.set_value xs) o)) /\
  (forall (ValueType : Type) (cmp : Comparable ValueType)
          (section name key doc_string : string) (v min max step : ValueType)
          (xs : list ValueType),
     Range.get_default_value
         (after_all (map Range.set_value xs)
            (Range.ctor section name key doc_string v min max step)) =
       (inr (if ge_op v min && le_op v max then v else min),
        after_all (map Range.set_value xs)
          (Range.ctor section name key doc_string v min max step))) /\
  (forall (section name key doc_string : string)
          (choices : GncMultiChoiceOptionChoices) (ui_type : GncOptionUIType)
          (keys : list string),
     Multichoice.get_default_value
         (after_all (map Multichoice.set_value keys)
            (Multichoice.ctor section name key doc_string choices ui_type)) =
       (match choices with
        | [] => inl std_out_of_range
        | e :: _ => inr (get_0 e)
        end,
        after_all (map Multichoice.set_value keys)
          (Multichoice.ctor section name key doc_string choices ui_type))) /\
  (forall (now : time64) (o : DateValue.GncOptionDateValue),
     DateValue.get_default_value now o = (inr now, o)).
Proof.
  split; [|split; [|split; [|split]]].
  - intros. unfold PlainValue.get_default_value, bind, get, ret.
    rewrite ReadFacts.plain_after_all_default. reflexivity.
  - intros ValueType section name key doc_string value validator ui_type o xs Hctor.
    destruct (ValidatedFacts.ctor_inr _ _ _ _ _ _ _ _ Hctor)
      as (target & _ & _ & _ & Hdef & Hfun).
    destruct (ValidatedFacts.after_all_set_value_keeps xs o target Hfun) as (_ & Hd & _).
    unfold Validated.get_default_value, bind, get, ret. rewrite Hd, Hdef. reflexivity.
  - intros. unfold Range.get_default_value, bind, get, ret.
    rewrite ReadFacts.range_after_all_default. reflexivity.
  - intros section name key doc_string choices ui_type keys.
    destruct (ReadFacts.multichoice_after_all_keeps keys
                (Multichoice.ctor section name key doc_string choices ui_type))
      as (Hd & Hc).
    unfold Multichoice.get_default_value, bind, get. rewrite Hd, Hc. simpl.
    destruct choices as [|e choices].
    + reflexivity.
    + rewrite (MultichoiceFacts.vector_at_in_range (e :: choices) 0 e); reflexivity.
  - reflexivity.
Qed.

Lemma default_value_fixed_except_for_date_witness :
  (exists o,
     Validated.ctor "Report" "Count" "a" "" 1%Z (Some (fun x => (0 <? x)%Z)) INTERNAL =
       inr o /\
     Validated.get_default_value (after_all (map Validated.set_value [7%Z; (-2)%Z]) o) =
       (inr 1%Z, after_all (map Validated.set_value [7%Z; (-2)%Z]) o)) /\
  Multichoice.get_default_value
      (after_all (map Multichoice.set_value ["b"; "zz"])
         (Multichoice.ctor "Report" "Style" "a" ""
            [("a", "Alpha", ""); ("b", "Beta", "")] MULTICHOICE)) =
    (inr "a",
     after_all (map Multichoice.set_value ["b"; "zz"])
       (Multichoice.ctor "Report" "Style" "a" ""
          [("a", "Alpha", ""); ("b", "Beta", "")] MULTICHOICE)).
Proof.
  destruct default_value_fixed_except_for_date as (_ & Hvalidated & _ & Hmulti & _).
  split.
  - eexists. split; [reflexivity|].
    apply (Hvalidated Z "Report" "Count" "a" "" 1%Z
             (Some (fun x => (0 <? x)%Z)) INTERNAL _ [7%Z; (-2)%Z]).
    reflexivity.
  - apply (Hmulti "Report" "Style" "a" "" [("a", "Alpha", ""); ("b", "Beta", "")]
             MULTICHOICE ["b"; "zz"]).
Defined.

(** C3 as stated fails on a date option: constructed at time 1000, its
    get_default_value() returns 1000 when called at 1000 and 2000 when
    called at 2000, the option being the same. *)
Lemma date_default_value_follows_the_clock :
  DateValue.get_default_value 1000%Z (DateValue.ctor 1000%Z "Report" "From" "a" "") =
    (inr 1000%Z, DateValue.ctor 1000%Z "Report" "From" "a" "") /\
  DateValue.get_default_value 2000%Z (DateValue.ctor 1000%Z "Report" "From" "a" "") =
    (inr 2000%Z, DateValue.ctor 1000%Z "Report" "From" "a" "") /\
  fst (DateValue.get_default_value 2000%Z (DateValue.ctor 1000%Z "Report" "From" "a" ""))
    <> fst (DateValue.get_default_value 1000%Z
              (DateValue.ctor 1000%Z "Report" "From" "a" "")).
Proof.
  split; [reflexivity|]. split; [reflexivity|]. simpl. discriminate.
Qed.

(** C4, as the header has it.  get_value() and get_default_value() leave
    the option alone.  On plain, validated and range options they always
    return; on a date option get_default_value() returns the time of the
    call and get_value() returns; on a constructible multichoice option
    they return a key when there is at least one entry, and both throw
    std::out_of_range when the choice list is empty. *)
Theorem reads_leave_option_alone_and_throw_only_on_empty_multichoice :
  (forall (ValueType : Type) (o : PlainValue.GncOptionValue ValueType),
     PlainValue.get_value o = (inr (PlainValue.m_value o), o) /\
     PlainValue.get_default_value o = (inr (PlainValue.m_default_value o), o)) /\
  (forall (ValueType : Type) (o : Validated.GncOptionValidatedValue ValueType),
     Validated.get_value o = (inr (Validated.m_value o), o) /\
     Validated.get_default_value o = (inr (Validated.m_default_value o), o)) /\
  (forall (ValueType : Type) (cmp : Comparable ValueType)
          (o : Range.GncOptionRangeValue ValueType),
     Range.get_value o = (inr (Range.m_value o), o) /\
     Range.get_default_value o = (inr (Range.m_default_value o), o)) /\
  (forall (now : time64)
          (relative_date : DateType -> RelativeDatePeriod -> time64 -> time64)
          (o : DateValue.GncOptionDateValue),
     (exists t, DateValue.get_value now relative_date o = (inr t, o)) /\
     DateValue.get_default_value now o = (inr now, o)) /\
  (forall o : Multichoice.GncOptionMultichoiceValue,
     Multichoice.constructible o ->
     (Multichoice.m_choices o <> [] ->
        (exists k, Multichoice.get_value o = (inr k, o)) /\
        (exists d, Multichoice.get_default_value o = (inr d, o))) /\
     (Multichoice.m_choices o = [] ->
        Multichoice.get_value o = (inl std_out_of_range, o) /\
        Multichoice.get_default_value o = (inl std_out_of_range, o))).
Proof.
  split; [|split; [|split; [|split]]].
  - intros. split; reflexivity.
  - intros. split; reflexivity.
  - intros. split; reflexivity.
  - intros now relative_date o. split; [|reflexivity].
    unfold DateValue.get_value, bind, get, ret.
    destruct (DateValue.m_type o); eexists; reflexivity.
  - intros o Hc.
    destruct (ReadFacts.constructible_indices_ok o Hc) as (Hd & Hv).
    unfold Multichoice.get_value, Multichoice.get_default_value, bind, get.
    split.
    + intros Hne.
      assert (0 < N.of_nat (length (Multichoice.m_choices o)))%N as Hpos.
      { destruct (Multichoice.m_choices o); [contradiction|simpl; lia]. }
      assert (Multichoice.m_value o < N.of_nat (length (Multichoice.m_choices o)))%N
        as Hlt by (destruct Hv as [->|Hv]; assumption).
      split.
      * destruct (ReadFacts.vector_at_below_size (Obj := Multichoice.GncOptionMultichoiceValue)
                    _ _ o Hlt) as (e & ->).
        eexists. reflexivity.
      * rewrite Hd.
        destruct (ReadFacts.vector_at_below_size (Obj := Multichoice.GncOptionMultichoiceValue)
                    _ _ o Hpos) as (e & ->).
        eexists. reflexivity.
    + intros ->. rewrite !ReadFacts.vector_at_empty. split; reflexivity.
Qed.

Lemma reads_leave_option_alone_and_throw_only_on_empty_multichoice_witness :
  (exists k,
     Multichoice.get_value
         (after (Multichoice.set_value "b")
            (Multichoice.ctor "Report" "Style" "a" ""
               [("a", "Alpha", ""); ("b", "Beta", "")] MULTICHOICE)) =
       (inr k,
        after (Multichoice.set_value "b")
          (Multichoice.ctor "Report" "Style" "a" ""
             [("a", "Alpha", ""); ("b", "Beta", "")] MULTICHOICE))) /\
  Multichoice.get_value (Multichoice.ctor "Report" "Style" "a" "" [] MULTICHOICE) =
    (inl std_out_of_range, Multichoice.ctor "Report" "Style" "a" "" [] MULTICHOICE).
Proof.
  destruct reads_leave_option_alone_and_throw_only_on_empty_multichoice
    as (_ & _ & _ & _ & Hmulti).
  split.
  - apply (Hmulti (after (Multichoice.perform (Multichoice.call_set_value "b"))
                     (Multichoice.ctor "Report" "Style" "a" ""
                        [("a", "Alpha", ""); ("b", "Beta", "")] MULTICHOICE))).
    + apply Multichoice.called. apply Multichoice.made.
    + simpl. discriminate.
  - apply (Hmulti (Multichoice.ctor "Report" "Style" "a" "" [] MULTICHOICE)).
    + apply Multichoice.made.
    + reflexivity.
Defined.

(** C4 as stated fails: a multichoice option constructed with an empty
    choice list is constructible, and both reads throw
    std::out_of_range. *)
Lemma multichoice_without_choices_reads_throw :
  Multichoice.constructible (Multichoice.ctor "Report" "Style" "a" "" [] MULTICHOICE) /\
  Multichoice.get_value (Multichoice.ctor "Report" "Style" "a" "" [] MULTICHOICE) =
    (inl std_out_of_range, Multichoice.ctor "Report" "Style" "a" "" [] MULTICHOICE) /\
  Multichoice.get_default_value
      (Multichoice.ctor "Report" "Style" "a" "" [] MULTICHOICE) =
    (inl std_out_of_range, Multichoice.ctor "Report" "Style" "a" "" [] MULTICHOICE).
Proof.
  split; [apply Multichoice.made|]. split; reflexivity.
Qed.

(** ** Scenarios *)

Module Scenarios.

Definition width : Range.GncOptionRangeValue int :=
  Range.ctor "Plot" "Width" "a" "" 5%Z 0%Z 10%Z 1%Z.

(** A range option (5, 0, 10, 1): 15 is refused and 5 stays, 7 is taken. *)
Example range_int_scenario :
  fst (Range.get_value width) = inr 5%Z /\
  fst (Range.set_value 15%Z width) =
    inl (std_invalid_argument "Validation failed, value not set.") /\
  fst (Range.get_value (after (Range.set_value 15%Z) width)) = inr 5%Z /\
  fst (Range.get_value (after (Range.set_value 7%Z) width)) = inr 7%Z.
Proof. repeat split. Qed.

(** The double instantiation: a NaN is outside every range, at
    construction and in set_value. *)
Example range_double_scenario :
  Range.m_value (Range.ctor "Plot" "Scale" "a" "" nan 0.5%float 2%float 0.25%float) =
    0.5%float /\
  Range.m_value (Range.ctor "Plot" "Scale" "a" "" 1.5%float 0.5%float 2%float 0.25%float) =
    1.5%float /\
  fst (Range.set_value nan
         (Range.ctor "Plot" "Scale" "a" "" 1.5%float 0.5%float 2%float 0.25%float)) =
    inl (std_invalid_argument "Validation failed, value not set.") /\
  fst (Range.set_value 2.5%float
         (Range.ctor "Plot" "Scale" "a" "" 1.5%float 0.5%float 2%float 0.25%float)) =
    inl (std_invalid_argument "Validation failed, value not set.").
Proof. repeat split. Qed.

Definition style : Multichoice.GncOptionMultichoiceValue :=
  Multichoice.ctor "Report" "Style" "a" ""
    [("a", "Alpha", ""); ("b", "Beta", "")] MULTICHOICE.

(** A multichoice option over a and b: a is selected first, b can be
    selected, c is refused and b stays. *)
Example multichoice_scenario :
  fst (Multichoice.get_value style) = inr "a" /\
  fst (Multichoice.get_value (after (Multichoice.set_value "b") style)) = inr "b" /\
  fst (Multichoice.set_value "c" (after (Multichoice.set_value "b") style)) =
    inl (std_invalid_argument "Value not a valid choice.") /\
  fst (Multichoice.get_value
         (after_all (map Multichoice.set_value ["b"; "c"]) style)) = inr "b".
Proof. repeat split. Qed.

(** With a key that occurs twice, the first occurrence is selected. *)
Example multichoice_duplicate_key :
  Multichoice.m_value
    (after (Multichoice.set_value "b")
       (Multichoice.ctor "Report" "Style" "a" ""
          [("a", "Alpha", ""); ("b", "Beta", ""); ("b", "Again", "")] MULTICHOICE)) =
  1%N.
Proof. reflexivity. Qed.

(** The index accessors past the end throw std::out_of_range. *)
Example multichoice_index_out_of_range :
  fst (Multichoice.permissible_value 2%N style) = inl std_out_of_range /\
  fst (Multichoice.permissible_value_name 1%N style) = inr "Beta" /\
  fst (Multichoice.num_permissible_values style) = inr 2%N.
Proof. repeat split. Qed.

(** A validator without a target makes the constructor throw
    std::bad_function_call. *)
Example validated_empty_validator :
  Validated.ctor "Report" "Owner" "a" "" nullptr None OWNER = inl std_bad_function_call.
Proof. reflexivity. Qed.

(** Through the wrapper, a request of the value type reaches the option:
    a date option takes a time64 and becomes absolute; a multichoice
    option without choices throws on get_value<std::string>. *)
Example option_matching_type :
  fst (Option.get_value 9%Z (fun _ _ t => t) cpp_int64_t
         (after (Option.set_value cpp_int64_t 42%Z)
            (Option.wrap (alt_Date (DateValue.ctor 7%Z "Report" "From" "a" ""))))) =
    inr 42%Z /\
  fst (Option.get_value 9%Z (fun _ _ t => t) std_string
         (Option.wrap (alt_Multichoice
                         (Multichoice.ctor "Report" "Style" "a" "" [] MULTICHOICE)))) =
    inl std_out_of_range.
Proof. split; reflexivity. Qed.

(** A non-INTERNAL option takes a UI item, gives it up on clear_ui_item,
    and can then be made INTERNAL. *)
Example ui_binding_scenario :
  after_all (map UIItem.perform
               [call_set_ui_item (address 1); call_make_internal;
                call_clear_ui_item; call_make_internal;
                call_set_ui_item (address 2)])
    (UIItem.ctor BOOLEAN) =
  {| m_ui_item := nullptr; m_ui_type := INTERNAL |}.
Proof. reflexivity. Qed.

End Scenarios.

(** * Further properties of the header *)

(** Destructs what the goal branches on, one scrutinee at a time. *)
Ltac break_match :=
  match goal with
  | |- context [match ?x with _ => _ end] => destruct x eqn:?
  end.

Ltac run_calls :=
  unfold after, Option.on, inherited, within, bind, get, ret, throw, modify, invoke;
  simpl.

(** ** The UI binding, continued *)

Module UIItemMore.

Lemma perform_on_internal (o : OptionUIItem) (c : UIItem.call) :
  m_ui_type o = INTERNAL -> m_ui_item o = nullptr ->
  after (UIItem.perform c) o = o.
Proof.
  destruct o as [item type]; simpl; intros -> ->.
  destruct c; reflexivity.
Qed.

Lemma perform_type (o : OptionUIItem) (c : UIItem.call) :
  m_ui_type (after (UIItem.perform c) o) = m_ui_type o \/
  m_ui_type (after (UIItem.perform c) o) = INTERNAL.
Proof.
  destruct o as [item type]. destruct c as [p| |]; unfold after; simpl.
  - unfold UIItem.set_ui_item, bind, get; simpl.
    destruct (GncOptionUIType_eqb type INTERNAL); simpl; auto.
  - auto.
  - unfold UIItem.make_internal, bind, get; simpl.
    destruct item; simpl; auto.
Qed.

End UIItemMore.

(** An option that has become INTERNAL stays as it is: from a reachable
    state whose UI type is INTERNAL, no sequence of set_ui_item,
    clear_ui_item and make_internal calls changes the binding. *)
Theorem internal_binding_is_final (o : OptionUIItem) (cs : list UIItem.call) :
  UIItem.reachable o ->
  m_ui_type o = INTERNAL ->
  after_all (map UIItem.perform cs) o = o.
Proof.
  intros Hreach Hty.
  pose proof (UIItemFacts.reachable_internal_unbound o Hreach Hty) as Hitem.
  clear Hreach. induction cs as [|c cs IH]; simpl; [reflexivity|].
  rewrite (UIItemMore.perform_on_internal o c Hty Hitem). exact IH.
Qed.

Lemma internal_binding_is_final_witness :
  after_all (map UIItem.perform
               [call_set_ui_item (address 3); call_clear_ui_item; call_make_internal])
    (after UIItem.make_internal (UIItem.ctor DATE)) =
  after UIItem.make_internal (UIItem.ctor DATE).
Proof.
  apply (internal_binding_is_final
           (after UIItem.make_internal (UIItem.ctor DATE))
           [call_set_ui_item (address 3); call_clear_ui_item; call_make_internal]).
  - apply (UIItem.reach_call _ UIItem.call_make_internal). constructor.
  - reflexivity.
Defined.

(** The UI type of an option only ever changes to INTERNAL: after any
    sequence of calls it is the type the option started with, or
    INTERNAL. *)
Theorem ui_type_changes_only_to_internal (o : OptionUIItem) (cs : list UIItem.call) :
  m_ui_type (after_all (map UIItem.perform cs) o) = m_ui_type o \/
  m_ui_type (after_all (map UIItem.perform cs) o) = INTERNAL.
Proof.
  revert o. induction cs as [|c cs IH]; intros o; simpl; [auto|].
  destruct (IH (after (UIItem.perform c) o)) as [E|E]; [|auto].
  rewrite E. apply UIItemMore.perform_type.
Qed.

(** Whatever the state, once clear_ui_item has run make_internal returns:
    the option ends INTERNAL and without a UI item, and both calls leave
    that state alone when repeated. *)
Theorem clear_then_make_internal_always_succeeds (o : OptionUIItem) :
  (UIItem.clear_ui_item ;;; UIItem.make_internal) o =
    (inr tt, {| m_ui_item := nullptr; m_ui_type := INTERNAL |}) /\
  (UIItem.clear_ui_item ;;; UIItem.make_internal)
      {| m_ui_item := nullptr; m_ui_type := INTERNAL |} =
    (inr tt, {| m_ui_item := nullptr; m_ui_type := INTERNAL |}).
Proof.
  destruct o as [item type]. split; reflexivity.
Qed.

(** ** The wrapper, continued *)

Module OptionMore.

Lemma on_fst {Alt A : Type} (inj : Alt -> GncOptionVariant) (m : M Alt A) (o : Alt) :
  fst (Option.on inj m o) = fst (m o).
Proof. unfold Option.on. destruct (m o). reflexivity. Qed.

Lemma on_snd {Alt A : Type} (inj : Alt -> GncOptionVariant) (m : M Alt A) (o : Alt) :
  snd (Option.on inj m o) = Option.wrap (inj (snd (m o))).
Proof. unfold Option.on. destruct (m o). reflexivity. Qed.

(** The guarded set_value of a visitor is the alternative's set_value on
    some value, or nothing. *)
Lemma if_same_type_set_cases {Alt : Type} (U T : cpp_type)
    (set : denote U -> M Alt unit) (value : denote T) :
  (exists x, Option.if_same_type_set U T set value = set x) \/
  Option.if_same_type_set U T set value = ret tt.
Proof.
  unfold Option.if_same_type_set.
  destruct (cpp_type_eq_dec U T) as [e|n]; [left; eexists; reflexivity|right; reflexivity].
Qed.

(** Two objects on which both branches of a guarded read have the same
    outcome give the guarded read the same outcome. *)
Lemma if_same_type_fst {Alt : Type} (U T : cpp_type)
    (then_ : M Alt (denote U)) (else_ : M Alt (denote T)) (o1 o2 : Alt) :
  fst (then_ o1) = fst (then_ o2) ->
  fst (else_ o1) = fst (else_ o2) ->
  fst (Option.if_same_type U T then_ else_ o1) =
    fst (Option.if_same_type U T then_ else_ o2).
Proof.
  intros Hthen Helse. unfold Option.if_same_type.
  destruct (cpp_type_eq_dec U T) as [e|n]; [|exact Helse].
  destruct e. simpl. exact Hthen.
Qed.

Lemma inherited_eq {Obj A : Type} `{Derives Obj OptionUIItem}
    (m : M OptionUIItem A) (o : Obj) :
  inherited m o = (fst (m (base o)), with_base (snd (m (base o))) o).
Proof. unfold inherited, within. destruct (m (base o)). reflexivity. Qed.

(** What set_value of each option class leaves alone, whether it returns
    or throws. *)
Lemma validated_set_value_frame {ValueType : Type}
    (o : Validated.GncOptionValidatedValue ValueType) (x : ValueType) :
  Validated.classifier (snd (Validated.set_value x o)) = Validated.classifier o /\
  Validated.ui (snd (Validated.set_value x o)) = Validated.ui o /\
  Validated.m_default_value (snd (Validated.set_value x o)) =
    Validated.m_default_value o.
Proof.
  unfold Validated.set_value, Validated.validate, invoke, bind, get, ret, throw.
  destruct (Validated.m_validator o) as [target|]; simpl; [|auto].
  destruct (target x); simpl; auto.
Qed.

Lemma range_set_value_frame {ValueType : Type} `{Comparable ValueType}
    (o : Range.GncOptionRangeValue ValueType) (x : ValueType) :
  Range.classifier (snd (Range.set_value x o)) = Range.classifier o /\
  Range.ui (snd (Range.set_value x o)) = Range.ui o /\
  Range.m_default_value (snd (Range.set_value x o)) = Range.m_default_value o.
Proof.
  unfold Range.set_value, Range.validate, bind, get, ret.
  destruct (ge_op x (Range.m_min o) && le_op x (Range.m_max o)); simpl; auto.
Qed.

Lemma multichoice_set_value_frame (o : Multichoice.GncOptionMultichoiceValue)
    (key : string) :
  Multichoice.classifier (snd (Multichoice.set_value key o)) =
    Multichoice.classifier o /\
  Multichoice.ui (snd (Multichoice.set_value key o)) = Multichoice.ui o /\
  Multichoice.m_default_value (snd (Multichoice.set_value key o)) =
    Multichoice.m_default_value o /\
  Multichoice.m_choices (snd (Multichoice.set_value key o)) = Multichoice.m_choices o.
Proof.
  unfold Multichoice.set_value, Multichoice.find_key, bind, get, ret.
  destruct (negb (Nat.eqb _ _)); simpl;
    try match goal with
        | |- context [negb (N.eqb ?a ?b)] => destruct (negb (N.eqb a b))
        end;
    simpl; auto.
Qed.

(** One call through the wrapper, caught or not, leaves the classifier
    alone. *)
Lemma perform_classifier (this : Option.GncOption) (c : GncOption_call) :
  Option.the_classifier (after (GncOption_perform c) this) =
    Option.the_classifier this.
Proof.
  destruct this as [v]. unfold after.
  destruct c as [T value|p|]; simpl.
  - unfold Option.set_value; simpl.
    destruct v as [o|o|o|o|o|o|o|o|o|o|o]; rewrite on_snd;
      match goal with
      | |- context [Option.if_same_type_set ?U T ?set value] =>
          destruct (if_same_type_set_cases U T set value) as [[x ->]| ->]
      end;
      unfold Option.the_classifier; simpl; try reflexivity.
    + apply multichoice_set_value_frame.
    + apply range_set_value_frame.
    + apply range_set_value_frame.
    + apply validated_set_value_frame.
  - unfold Option.set_ui_item, Option.visit_ui; simpl.
    destruct v as [o|o|o|o|o|o|o|o|o|o|o]; rewrite on_snd, inherited_eq;
      reflexivity.
  - unfold Option.make_internal, Option.visit_ui; simpl.
    destruct v as [o|o|o|o|o|o|o|o|o|o|o]; rewrite on_snd, inherited_eq;
      reflexivity.
Qed.

(** One set_value through the wrapper, caught or not, leaves the UI
    binding alone. *)
Lemma set_value_ui (this : Option.GncOption) (T : cpp_type) (value : denote T) :
  the_ui (after (Option.set_value T value) this) = the_ui this.
Proof.
  destruct this as [v]. unfold after, Option.set_value; simpl.
  destruct v as [o|o|o|o|o|o|o|o|o|o|o]; rewrite on_snd;
    match goal with
    | |- context [Option.if_same_type_set ?U T ?set value] =>
        destruct (if_same_type_set_cases U T set value) as [[x ->]| ->]
    end;
    unfold the_ui; simpl; try reflexivity.
  - apply multichoice_set_value_frame.
  - apply range_set_value_frame.
  - apply range_set_value_frame.
  - apply validated_set_value_frame.
Qed.

Lemma get_ui_type_eq (this : Option.GncOption) :
  Option.get_ui_type this = (inr (m_ui_type (the_ui this)), this).
Proof.
  destruct this as [v]. unfold Option.get_ui_type, Option.visit_ui, the_ui; simpl.
  destruct v as [o|o|o|o|o|o|o|o|o|o|o]; unfold Option.on; rewrite inherited_eq;
    destruct o; reflexivity.
Qed.

Lemma get_ui_item_eq (this : Option.GncOption) :
  Option.get_ui_item this = (inr (m_ui_item (the_ui this)), this).
Proof.
  destruct this as [v]. unfold Option.get_ui_item, Option.visit_ui, the_ui; simpl.
  destruct v as [o|o|o|o|o|o|o|o|o|o|o]; unfold Option.on; rewrite inherited_eq;
    destruct o; reflexivity.
Qed.

(** A visitor that calls an OptionUIItem member runs it on the UI base of
    the active alternative. *)
Lemma visit_ui_eq {A : Type} (m : M OptionUIItem A) (this : Option.GncOption) :
  fst (Option.visit_ui m this) = fst (m (the_ui this)) /\
  the_ui (snd (Option.visit_ui m this)) = snd (m (the_ui this)) /\
  Option.the_classifier (snd (Option.visit_ui m this)) = Option.the_classifier this.
Proof.
  destruct this as [v]. unfold Option.visit_ui, the_ui, Option.the_classifier; simpl.
  destruct v as [o|o|o|o|o|o|o|o|o|o|o];
    rewrite on_fst, on_snd, inherited_eq; simpl; auto.
Qed.

(** The default read of each option class after its set_value. *)
Lemma multichoice_default_after_set (o : Multichoice.GncOptionMultichoiceValue)
    (key : string) :
  fst (Multichoice.get_default_value (snd (Multichoice.set_value key o))) =
    fst (Multichoice.get_default_value o).
Proof.
  destruct (multichoice_set_value_frame o key) as (_ & _ & Hd & Hc).
  unfold Multichoice.get_default_value, bind, get. rewrite Hd, Hc.
  unfold vector_at.
  destruct (N.of_nat (length (Multichoice.m_choices o)) <=? Multichoice.m_default_value o)%N;
    [reflexivity|].
  destruct (nth_error _ _); reflexivity.
Qed.

Lemma range_default_after_set {ValueType : Type} `{Comparable ValueType}
    (o : Range.GncOptionRangeValue ValueType) (x : ValueType) :
  fst (Range.get_default_value (snd (Range.set_value x o))) =
    fst (Range.get_default_value o).
Proof.
  destruct (range_set_value_frame o x) as (_ & _ & Hd).
  unfold Range.get_default_value, bind, get, ret. simpl. rewrite Hd. reflexivity.
Qed.

Lemma validated_default_after_set {ValueType : Type}
    (o : Validated.GncOptionValidatedValue ValueType) (x : ValueType) :
  fst (Validated.get_default_value (snd (Validated.set_value x o))) =
    fst (Validated.get_default_value o).
Proof.
  destruct (validated_set_value_frame o x) as (_ & _ & Hd).
  unfold Validated.get_default_value, bind, get, ret. simpl. rewrite Hd. reflexivity.
Qed.

(** The reads of a multichoice option do not depend on its UI base. *)
Lemma multichoice_reads_ignore_ui (o : Multichoice.GncOptionMultichoiceValue)
    (u : OptionUIItem) :
  fst (Multichoice.get_value
         {| Multichoice.classifier := Multichoice.classifier o;
            Multichoice.ui := u;
            Multichoice.m_value := Multichoice.m_value o;
            Multichoice.m_default_value := Multichoice.m_default_value o;
            Multichoice.m_choices := Multichoice.m_choices o |}) =
    fst (Multichoice.get_value o) /\
  fst (Multichoice.get_default_value
         {| Multichoice.classifier := Multichoice.classifier o;
            Multichoice.ui := u;
            Multichoice.m_value := Multichoice.m_value o;
            Multichoice.m_default_value := Multichoice.m_default_value o;
            Multichoice.m_choices := Multichoice.m_choices o |}) =
    fst (Multichoice.get_default_value o).
Proof.
  unfold Multichoice.get_value, Multichoice.get_default_value, bind, get, vector_at.
  simpl. split.
  - destruct (N.of_nat (length (Multichoice.m_choices o)) <=? Multichoice.m_value o)%N;
      [reflexivity|].
    destruct (nth_error _ _); reflexivity.
  - destruct (N.of_nat (length (Multichoice.m_choices o)) <=?
              Multichoice.m_default_value o)%N; [reflexivity|].
    destruct (nth_error _ _); reflexivity.
Qed.

(** One call through the wrapper, caught or not, leaves the outcome of
    get_default_value<U> at a given time alone. *)
Lemma perform_default (now : time64) (U : cpp_type)
    (this : Option.GncOption) (c : GncOption_call) :
  fst (Option.get_default_value now U (after (GncOption_perform c) this)) =
    fst (Option.get_default_value now U this).
Proof.
  destruct this as [v]. unfold after.
  destruct c as [T value|p|]; simpl.
  - unfold Option.set_value; simpl.
    destruct v as [o|o|o|o|o|o|o|o|o|o|o]; rewrite on_snd;
      match goal with
      | |- context [Option.if_same_type_set ?V T ?set value] =>
          destruct (if_same_type_set_cases V T set value) as [[x ->]| ->]
      end;
      unfold Option.get_default_value; simpl; rewrite !on_fst; try reflexivity;
      apply if_same_type_fst; try reflexivity.
    + apply multichoice_default_after_set.
    + apply range_default_after_set.
    + apply range_default_after_set.
    + apply validated_default_after_set.
  - unfold Option.set_ui_item, Option.visit_ui; simpl.
    destruct v as [o|o|o|o|o|o|o|o|o|o|o]; rewrite on_snd, inherited_eq;
      unfold Option.get_default_value; simpl; rewrite !on_fst;
      apply if_same_type_fst; try reflexivity;
      apply multichoice_reads_ignore_ui.
  - unfold Option.make_internal, Option.visit_ui; simpl.
    destruct v as [o|o|o|o|o|o|o|o|o|o|o]; rewrite on_snd, inherited_eq;
      unfold Option.get_default_value; simpl; rewrite !on_fst;
      apply if_same_type_fst; try reflexivity;
      apply multichoice_reads_ignore_ui.
Qed.

(** A UI call through the wrapper, caught or not, leaves the outcome of
    get_value<U> alone. *)
Lemma visit_ui_value {A : Type} (m : M OptionUIItem A) (now : time64)
    (relative_date : DateType -> RelativeDatePeriod -> time64 -> time64)
    (U : cpp_type) (this : Option.GncOption) :
  fst (Option.get_value now relative_date U (snd (Option.visit_ui m this))) =
    fst (Option.get_value now relative_date U this).
Proof.
  destruct this as [v]. unfold Option.visit_ui; simpl.
  destruct v as [o|o|o|o|o|o|o|o|o|o|o]; rewrite on_snd, inherited_eq;
    unfold Option.get_value; simpl; rewrite !on_fst;
    apply if_same_type_fst;
    first [ reflexivity
          | apply multichoice_reads_ignore_ui
          | unfold DateValue.get_value, bind, get, ret; simpl;
            destruct (DateValue.m_type o); reflexivity ].
Qed.

End OptionMore.

(** The four string getters of a GncOption made by the value constructor
    return the constructor's section, name, key and doc string, and keep
    doing so after any sequence of set_value<T>, set_ui_item and
    make_internal calls, caught when they throw: no member function
    changes the classifier. *)
Theorem option_getters_return_constructor_strings
    (P : plain_type) (section name key doc_string : string)
    (value : denote (plain_cpp_type P)) (ui_type : GncOptionUIType)
    (cs : list GncOption_call) :
  fst (Option.get_section
         (after_all (map GncOption_perform cs)
            (GncOption_ctor P section name key doc_string value ui_type))) =
    inr section /\
  fst (Option.get_name
         (after_all (map GncOption_perform cs)
            (GncOption_ctor P section name key doc_string value ui_type))) =
    inr name /\
  fst (Option.get_key
         (after_all (map GncOption_perform cs)
            (GncOption_ctor P section name key doc_string value ui_type))) =
    inr key /\
  fst (Option.get_docstring
         (after_all (map GncOption_perform cs)
            (GncOption_ctor P section name key doc_string value ui_type))) =
    inr doc_string.
Proof.
  assert (forall this,
             Option.the_classifier (after_all (map GncOption_perform cs) this) =
               Option.the_classifier this) as Hkeep.
  { induction cs as [|c cs IH]; intros this; simpl; [reflexivity|].
    rewrite IH. apply OptionMore.perform_classifier. }
  unfold Option.get_section, Option.get_name, Option.get_key, Option.get_docstring,
    bind, get, ret; simpl.
  rewrite Hkeep. destruct P; simpl; auto.
Qed.

(** At a given time, get_default_value<U> of a GncOption has the same
    outcome after any sequence of set_value<T>, set_ui_item and
    make_internal calls as before it, for every alternative and every
    requested type [U]. *)
Theorem option_default_survives_every_call (now : time64) (U : cpp_type)
    (this : Option.GncOption) (cs : list GncOption_call) :
  fst (Option.get_default_value now U (after_all (map GncOption_perform cs) this)) =
    fst (Option.get_default_value now U this).
Proof.
  revert this. induction cs as [|c cs IH]; intros this; simpl; [reflexivity|].
  rewrite IH. apply OptionMore.perform_default.
Qed.

(** Value and UI binding of a GncOption are independent.  set_value<T>,
    whether it returns or throws, leaves get_ui_type and get_ui_item as
    they were; set_ui_item and make_internal, whether they return or
    throw, leave the outcome of get_value<U> as it was. *)
Theorem option_value_and_ui_binding_are_independent
    (now : time64) (relative_date : DateType -> RelativeDatePeriod -> time64 -> time64)
    (this : Option.GncOption) :
  (forall (T : cpp_type) (value : denote T),
     fst (Option.get_ui_type (after (Option.set_value T value) this)) =
       fst (Option.get_ui_type this) /\
     fst (Option.get_ui_item (after (Option.set_value T value) this)) =
       fst (Option.get_ui_item this)) /\
  (forall (U : cpp_type) (ui_elem : pointer),
     fst (Option.get_value now relative_date U (after (Option.set_ui_item ui_elem) this)) =
       fst (Option.get_value now relative_date U this) /\
     fst (Option.get_value now relative_date U (after Option.make_internal this)) =
       fst (Option.get_value now relative_date U this)).
Proof.
  split.
  - intros T value.
    rewrite !OptionMore.get_ui_type_eq, !OptionMore.get_ui_item_eq. simpl.
    rewrite OptionMore.set_value_ui. auto.
  - intros U ui_elem. unfold after, Option.set_ui_item, Option.make_internal.
    split; apply OptionMore.visit_ui_value.
Qed.

(** On a GncOption whose UI type is not INTERNAL, whichever alternative
    is active, set_ui_item(p) returns, get_ui_item() then returns [p],
    and the UI type and the classifier are as before. *)
Theorem option_set_ui_item_then_get_ui_item
    (this : Option.GncOption) (ui_type : GncOptionUIType) (ui_elem : pointer) :
  fst (Option.get_ui_type this) = inr ui_type ->
  ui_type <> INTERNAL ->
  exists this',
    Option.set_ui_item ui_elem this = (inr tt, this') /\
    Option.get_ui_item this' = (inr ui_elem, this') /\
    Option.get_ui_type this' = (inr ui_type, this') /\
    Option.the_classifier this' = Option.the_classifier this.
Proof.
  rewrite OptionMore.get_ui_type_eq. simpl. intros Hty Hne.
  assert (m_ui_type (the_ui this) = ui_type) as Hty' by congruence. clear Hty.
  destruct (OptionMore.visit_ui_eq (UIItem.set_ui_item ui_elem) this)
    as (Hfst & Hsnd & Hcls).
  assert (UIItem.set_ui_item ui_elem (the_ui this) =
            (inr tt, {| m_ui_item := ui_elem; m_ui_type := ui_type |})) as Hset.
  { destruct (the_ui this) as [item type]. simpl in Hty'. subst type.
    unfold UIItem.set_ui_item, bind, get; simpl.
    destruct (GncOptionUIType_eqb ui_type INTERNAL) eqn:E; [|reflexivity].
    apply UIItemFacts.GncOptionUIType_eqb_eq in E. contradiction. }
  rewrite Hset in Hfst, Hsnd. simpl in Hfst, Hsnd.
  exists (snd (Option.visit_ui (UIItem.set_ui_item ui_elem) this)).
  split; [|split; [|split]].
  - unfold Option.set_ui_item.
    destruct (Option.visit_ui (UIItem.set_ui_item ui_elem) this) as [r this'].
    simpl in Hfst. subst r. reflexivity.
  - rewrite OptionMore.get_ui_item_eq, Hsnd. reflexivity.
  - rewrite OptionMore.get_ui_type_eq, Hsnd. reflexivity.
  - exact Hcls.
Qed.

Lemma option_set_ui_item_then_get_ui_item_witness :
  exists this',
    Option.set_ui_item (address 5)
      (Option.wrap (alt_Range_int (Range.ctor "Plot" "Width" "a" "" 5 0 10 1)%Z)) =
      (inr tt, this') /\
    Option.get_ui_item this' = (inr (address 5), this') /\
    Option.get_ui_type this' = (inr NUMBER_RANGE, this').
Proof.
  destruct (option_set_ui_item_then_get_ui_item
              (Option.wrap (alt_Range_int (Range.ctor "Plot" "Width" "a" "" 5 0 10 1)%Z))
              NUMBER_RANGE (address 5)) as (this' & Hset & Hitem & Hty & _).
  - reflexivity.
  - discriminate.
  - exists this'. auto.
Defined.

(** get_default_value<T> with a type [T] other than the value type of the
    active alternative returns [T{}] and leaves the option alone, also on
    a multichoice option without choices. *)
Theorem option_mismatched_type_reads_default_of_default
    (now : time64) (this : Option.GncOption) (T : cpp_type) :
  T <> value_type (Option.m_option this) ->
  Option.get_default_value now T this = (inr (value_init T), this).
Proof.
  destruct this as [v].
  destruct v as [o|o|o|o|o|o|o|o|o|o|o]; destruct T; simpl; intros Hne;
    try (exfalso; apply Hne; reflexivity); reflexivity.
Qed.

Lemma option_mismatched_type_reads_default_of_default_witness :
  Option.get_default_value 0%Z cpp_int64_t
      (Option.wrap (alt_Multichoice
                      (Multichoice.ctor "Report" "Style" "a" "" [] MULTICHOICE))) =
    (inr 0%Z,
     Option.wrap (alt_Multichoice
                    (Multichoice.ctor "Report" "Style" "a" "" [] MULTICHOICE))).
Proof.
  apply (option_mismatched_type_reads_default_of_default 0%Z
           (Option.wrap (alt_Multichoice
                           (Multichoice.ctor "Report" "Style" "a" "" [] MULTICHOICE)))
           cpp_int64_t).
  simpl. discriminate.
Defined.

(** ** Multichoice options, continued *)

Module MultichoiceMore.

(** When find_if stops before end(), it stops at an element that
    satisfies the predicate. *)
Lemma find_if_found {A : Type} (pred : A -> bool) (v : list A) :
  find_if pred v <> length v ->
  exists x, nth_error v (find_if pred v) = Some x /\ pred x = true /\ In x v.
Proof.
  induction v as [|y v IH]; simpl; intros Hne; [contradiction|].
  destruct (pred y) eqn:Hy.
  - exists y. auto.
  - destruct IH as (x & Hx & Hp & Hin); [congruence|].
    exists x. auto.
Qed.

(** find_key answers the sentinel exactly when no entry has the key. *)
Lemma find_key_cases (o : Multichoice.GncOptionMultichoiceValue) (key : string) :
  Multichoice.vector_size_ok o ->
  (Multichoice.find_key key o = (inr size_t_max, o) /\
   forall e, In e (Multichoice.m_choices o) -> get_0 e <> key) \/
  (exists i,
     Multichoice.find_key key o = (inr (N.of_nat i), o) /\
     N.of_nat i <> size_t_max /\
     i < length (Multichoice.m_choices o) /\
     Multichoice.first_with_key key (Multichoice.m_choices o) i).
Proof.
  intros Hsize.
  set (pred := fun choice : GncMultiChoiceOptionEntry => String.eqb (get_0 choice) key).
  destruct (Nat.eq_dec (find_if pred (Multichoice.m_choices o))
              (length (Multichoice.m_choices o))) as [E|Hne].
  - left.
    assert (forall e, In e (Multichoice.m_choices o) -> get_0 e <> key) as Hno.
    { intros e He Hk.
      destruct (MultichoiceFacts.find_if_first pred (Multichoice.m_choices o))
        as (Hlt & _).
      - exists e. split; [exact He|]. unfold pred. now apply String.eqb_eq.
      - lia. }
    split; [|exact Hno]. now apply MultichoiceFacts.find_key_absent.
  - right.
    destruct (find_if_found pred (Multichoice.m_choices o) Hne) as (x & _ & Hp & Hin).
    destruct (MultichoiceFacts.find_key_present o key Hsize) as (i & Hfirst & Hlt & Hmax & Hfind).
    + exists x. split; [exact Hin|]. now apply String.eqb_eq.
    + exists i. auto.
Qed.

(** Two first positions of one key are the same position. *)
Lemma first_with_key_unique (key : string) (choices : GncMultiChoiceOptionChoices)
    (i j : nat) :
  Multichoice.first_with_key key choices i ->
  Multichoice.first_with_key key choices j ->
  i = j.
Proof.
  intros ((e & He & Hk) & Hbefore) ((e' & He' & Hk') & Hbefore').
  destruct (Nat.lt_trichotomy i j) as [Hlt|[E|Hgt]]; [|exact E|].
  - exfalso. exact (Hbefore' i e Hlt He Hk).
  - exfalso. exact (Hbefore j e' Hgt He' Hk').
Qed.

(** With keys that are all different, the entry at a position is the
    first one with its key. *)
Lemma nodup_first_with_key (choices : GncMultiChoiceOptionChoices) (i : nat)
    (e : GncMultiChoiceOptionEntry) :
  NoDup (map get_0 choices) ->
  nth_error choices i = Some e ->
  Multichoice.first_with_key (get_0 e) choices i.
Proof.
  intros Hnodup He. split; [exists e; auto|].
  intros j e' Hj He' Hk.
  assert (nth_error (map get_0 choices) i = Some (get_0 e)) as Hi
    by (rewrite nth_error_map, He; reflexivity).
  assert (nth_error (map get_0 choices) j = Some (get_0 e)) as Hj'
    by (rewrite nth_error_map, He'; simpl; rewrite Hk; reflexivity).
  assert (i < length (map get_0 choices)) as Hlen
    by (apply nth_error_Some; congruence).
  pose proof (proj1 (NoDup_nth_error (map get_0 choices)) Hnodup i j Hlen) as Huniq.
  rewrite Hi, Hj' in Huniq. specialize (Huniq eq_refl). lia.
Qed.

(** vector::at at or past the size. *)
Lemma vector_at_past_end {Obj A : Type} (v : list A) (n : size_t) (o : Obj) :
  (N.of_nat (length v) <= n)%N -> vector_at v n o = (inl std_out_of_range, o).
Proof.
  intros Hle. unfold vector_at.
  destruct (N.leb_spec (N.of_nat (length v)) n) as [_|Hlt]; [reflexivity|lia].
Qed.

Lemma vector_at_returns {Obj A : Type} (v : list A) (n : size_t) (x : A) (o : Obj) :
  vector_at v n o = (inr x, o) ->
  (n < N.of_nat (length v))%N /\ nth_error v (N.to_nat n) = Some x.
Proof.
  unfold vector_at.
  destruct (N.leb_spec (N.of_nat (length v)) n) as [_|Hlt]; [discriminate|].
  destruct (nth_error v (N.to_nat n)) as [y|]; [|discriminate].
  intros E. inversion E. auto.
Qed.

End MultichoiceMore.

(** Index to key and back.  When permissible_value_index(key) returns an
    index other than the sentinel, permissible_value of that index returns
    [key], permissible_value_name and permissible_value_description return
    the name and description of the first entry with that key, and none
    of them touches the option. *)
Theorem multichoice_index_of_key_addresses_key
    (o : Multichoice.GncOptionMultichoiceValue) (key : string) (index : size_t) :
  Multichoice.vector_size_ok o ->
  Multichoice.permissible_value_index key o = (inr index, o) ->
  index <> size_t_max ->
  Multichoice.first_with_key key (Multichoice.m_choices o) (N.to_nat index) /\
  Multichoice.permissible_value index o = (inr key, o) /\
  exists e,
    nth_error (Multichoice.m_choices o) (N.to_nat index) = Some e /\
    Multichoice.permissible_value_name index o = (inr (get_1 e), o) /\
    Multichoice.permissible_value_description index o = (inr (get_2 e), o).
Proof.
  intros Hsize Hidx Hne. unfold Multichoice.permissible_value_index in Hidx.
  destruct (MultichoiceMore.find_key_cases o key Hsize)
    as [(Hfind & _)|(i & Hfind & _ & _ & Hfirst)];
    rewrite Hfind in Hidx; inversion Hidx; subst index; [contradiction|].
  rewrite Nat2N.id. split; [exact Hfirst|].
  destruct Hfirst as ((e & He & Hk) & _).
  unfold Multichoice.permissible_value, Multichoice.permissible_value_name,
    Multichoice.permissible_value_description, bind, get.
  rewrite (MultichoiceFacts.vector_at_in_range _ _ _ _ He). unfold ret.
  rewrite Hk. split; [reflexivity|]. exists e. auto.
Qed.

Lemma multichoice_index_of_key_addresses_key_witness :
  Multichoice.first_with_key "b" [("a", "Alpha", "x"); ("b", "Beta", "y")] 1 /\
  Multichoice.permissible_value 1%N
      (Multichoice.ctor "Report" "Style" "a" ""
         [("a", "Alpha", "x"); ("b", "Beta", "y")] MULTICHOICE) =
    (inr "b",
     Multichoice.ctor "Report" "Style" "a" ""
       [("a", "Alpha", "x"); ("b", "Beta", "y")] MULTICHOICE).
Proof.
  destruct (multichoice_index_of_key_addresses_key
              (Multichoice.ctor "Report" "Style" "a" ""
                 [("a", "Alpha", "x"); ("b", "Beta", "y")] MULTICHOICE)
              "b" 1%N) as (Hfirst & Hval & _).
  - unfold Multichoice.vector_size_ok. vm_compute. discriminate.
  - reflexivity.
  - vm_compute. discriminate.
  - split; [exact Hfirst | exact Hval].
Defined.

(** Key to index and back.  When the keys of the choices are all
    different and permissible_value(index) returns a key,
    permissible_value_index of that key returns [index]. *)
Theorem multichoice_key_of_index_has_that_index
    (o : Multichoice.GncOptionMultichoiceValue) (index : size_t) (key : string) :
  Multichoice.vector_size_ok o ->
  NoDup (map get_0 (Multichoice.m_choices o)) ->
  Multichoice.permissible_value index o = (inr key, o) ->
  Multichoice.permissible_value_index key o = (inr index, o).
Proof.
  intros Hsize Hnodup Hval.
  unfold Multichoice.permissible_value, bind, get in Hval.
  destruct (vector_at (Multichoice.m_choices o) index o) as [[ex|e] o'] eqn:Hat;
    [discriminate|].
  assert (o' = o /\ get_0 e = key) as (-> & Hk)
    by (unfold ret in Hval; inversion Hval; auto).
  apply MultichoiceMore.vector_at_returns in Hat. destruct Hat as (Hlt & He).
  pose proof (MultichoiceMore.nodup_first_with_key _ _ _ Hnodup He) as Hfirst.
  rewrite Hk in Hfirst.
  unfold Multichoice.permissible_value_index.
  destruct (MultichoiceMore.find_key_cases o key Hsize)
    as [(_ & Hno)|(i & Hfind & _ & _ & Hfirst')].
  - exfalso. apply (Hno e); [|exact Hk]. eapply nth_error_In. exact He.
  - rewrite (MultichoiceMore.first_with_key_unique _ _ _ _ Hfirst' Hfirst) in Hfind.
    rewrite N2Nat.id in Hfind. exact Hfind.
Qed.

Lemma multichoice_key_of_index_has_that_index_witness :
  Multichoice.permissible_value_index "b"
      (Multichoice.ctor "Report" "Style" "a" ""
         [("a", "Alpha", "x"); ("b", "Beta", "y")] MULTICHOICE) =
    (inr 1%N,
     Multichoice.ctor "Report" "Style" "a" ""
       [("a", "Alpha", "x"); ("b", "Beta", "y")] MULTICHOICE).
Proof.
  apply (multichoice_key_of_index_has_that_index
           (Multichoice.ctor "Report" "Style" "a" ""
              [("a", "Alpha", "x"); ("b", "Beta", "y")] MULTICHOICE) 1%N "b").
  - unfold Multichoice.vector_size_ok. vm_compute. discriminate.
  - simpl. repeat constructor; simpl; intuition discriminate.
  - reflexivity.
Defined.

(** The index accessors and the count.  num_permissible_values() returns
    the number [n] of choices; permissible_value, permissible_value_name
    and permissible_value_description throw std::out_of_range exactly for
    the indices at or above [n], and below [n] return the three strings of
    one and the same entry. *)
Theorem multichoice_index_accessors_check_bounds
    (o : Multichoice.GncOptionMultichoiceValue) (index : size_t) :
  Multichoice.vector_size_ok o ->
  Multichoice.num_permissible_values o =
    (inr (N.of_nat (length (Multichoice.m_choices o))), o) /\
  ((N.of_nat (length (Multichoice.m_choices o)) <= index)%N ->
     Multichoice.permissible_value index o = (inl std_out_of_range, o) /\
     Multichoice.permissible_value_name index o = (inl std_out_of_range, o) /\
     Multichoice.permissible_value_description index o = (inl std_out_of_range, o)) /\
  ((index < N.of_nat (length (Multichoice.m_choices o)))%N ->
     exists k n d,
       nth_error (Multichoice.m_choices o) (N.to_nat index) = Some (k, n, d) /\
       Multichoice.permissible_value index o = (inr k, o) /\
       Multichoice.permissible_value_name index o = (inr n, o) /\
       Multichoice.permissible_value_description index o = (inr d, o)).
Proof.
  intros Hsize. split; [|split].
  - unfold Multichoice.num_permissible_values, bind, get, ret.
    unfold Multichoice.vector_size_ok, size_t_max in Hsize.
    rewrite N.mod_small; [reflexivity|lia].
  - intros Hle.
    unfold Multichoice.permissible_value, Multichoice.permissible_value_name,
      Multichoice.permissible_value_description, bind, get.
    rewrite (MultichoiceMore.vector_at_past_end _ _ _ Hle). auto.
  - intros Hlt.
    destruct (nth_error (Multichoice.m_choices o) (N.to_nat index))
      as [[[k n] d]|] eqn:He.
    + exists k, n, d. split; [reflexivity|].
      unfold Multichoice.permissible_value, Multichoice.permissible_value_name,
        Multichoice.permissible_value_description, bind, get.
      rewrite <- (N2Nat.id index).
      rewrite (MultichoiceFacts.vector_at_in_range _ _ _ _ He). auto.
    + apply nth_error_None in He. lia.
Qed.

Lemma multichoice_index_accessors_check_bounds_witness :
  Multichoice.num_permissible_values
      (Multichoice.ctor "Report" "Style" "a" ""
         [("a", "Alpha", "x"); ("b", "Beta", "y")] MULTICHOICE) =
    (inr 2%N,
     Multichoice.ctor "Report" "Style" "a" ""
       [("a", "Alpha", "x"); ("b", "Beta", "y")] MULTICHOICE) /\
  Multichoice.permissible_value_name 2%N
      (Multichoice.ctor "Report" "Style" "a" ""
         [("a", "Alpha", "x"); ("b", "Beta", "y")] MULTICHOICE) =
    (inl std_out_of_range,
     Multichoice.ctor "Report" "Style" "a" ""
       [("a", "Alpha", "x"); ("b", "Beta", "y")] MULTICHOICE).
Proof.
  destruct (multichoice_index_accessors_check_bounds
              (Multichoice.ctor "Report" "Style" "a" ""
                 [("a", "Alpha", "x"); ("b", "Beta", "y")] MULTICHOICE) 2%N)
    as (Hnum & Hpast & _).
  - unfold Multichoice.vector_size_ok. vm_compute. discriminate.
  - split; [exact Hnum|]. apply Hpast. simpl. lia.
Defined.

(** validate(key) of a multichoice option returns without touching the
    option, and tells what set_value(key) will do: it returns true
    exactly when some entry has the key, which is exactly when
    set_value(key) returns; and false exactly when set_value(key) throws
    std::invalid_argument. *)
Theorem multichoice_validate_predicts_set_value
    (o : Multichoice.GncOptionMultichoiceValue) (key : string) :
  Multichoice.vector_size_ok o ->
  exists b,
    Multichoice.validate key o = (inr b, o) /\
    (b = true <-> exists e, In e (Multichoice.m_choices o) /\ get_0 e = key) /\
    (b = true <-> exists o', Multichoice.set_value key o = (inr tt, o')) /\
    (b = false <->
     Multichoice.set_value key o =
       (inl (std_invalid_argument "Value not a valid choice."), o)).
Proof.
  intros Hsize.
  unfold Multichoice.validate, Multichoice.set_value, bind.
  destruct (MultichoiceMore.find_key_cases o key Hsize)
    as [(Hfind & Hno)|(i & Hfind & Hmax & Hlt & ((e & He & Hk) & _))];
    rewrite Hfind.
  - exists false. simpl. split; [reflexivity|]. split; [|split].
    + split; [discriminate|]. intros (e & He & Hk). exfalso. exact (Hno e He Hk).
    + split; [discriminate|]. intros (o' & E). discriminate E.
    + split; reflexivity.
  - exists true.
    destruct (N.eqb_spec (N.of_nat i) size_t_max) as [E|_]; [contradiction|].
    simpl. split; [reflexivity|]. split; [|split].
    + split; [|reflexivity]. intros _. exists e. split; [|exact Hk].
      eapply nth_error_In. exact He.
    + split; [|reflexivity]. intros _. eexists. reflexivity.
    + split; discriminate.
Qed.

Lemma multichoice_validate_predicts_set_value_witness :
  exists b,
    Multichoice.validate "c"
        (Multichoice.ctor "Report" "Style" "a" ""
           [("a", "Alpha", ""); ("b", "Beta", "")] MULTICHOICE) =
      (inr b,
       Multichoice.ctor "Report" "Style" "a" ""
         [("a", "Alpha", ""); ("b", "Beta", "")] MULTICHOICE) /\
    (b = false <->
     Multichoice.set_value "c"
         (Multichoice.ctor "Report" "Style" "a" ""
            [("a", "Alpha", ""); ("b", "Beta", "")] MULTICHOICE) =
       (inl (std_invalid_argument "Value not a valid choice."),
        Multichoice.ctor "Report" "Style" "a" ""
          [("a", "Alpha", ""); ("b", "Beta", "")] MULTICHOICE)).
Proof.
  destruct (multichoice_validate_predicts_set_value
              (Multichoice.ctor "Report" "Style" "a" ""
                 [("a", "Alpha", ""); ("b", "Beta", "")] MULTICHOICE) "c")
    as (b & Hval & _ & _ & Hrej).
  - unfold Multichoice.vector_size_ok. vm_compute. discriminate.
  - exists b. split; assumption.
Defined.

(** No call changes the choices of a multichoice option: after any
    sequence of set_value, set_ui_item, clear_ui_item and make_internal
    calls, caught when they throw, the choice list, the default index and
    the classifier are the same, so num_permissible_values() returns the
    same count. *)
Theorem multichoice_calls_leave_choices_alone
    (o : Multichoice.GncOptionMultichoiceValue) (cs : list Multichoice.call) :
  Multichoice.m_choices (after_all (map Multichoice.perform cs) o) =
    Multichoice.m_choices o /\
  Multichoice.m_default_value (after_all (map Multichoice.perform cs) o) =
    Multichoice.m_default_value o /\
  Multichoice.classifier (after_all (map Multichoice.perform cs) o) =
    Multichoice.classifier o /\
  fst (Multichoice.num_permissible_values (after_all (map Multichoice.perform cs) o)) =
    fst (Multichoice.num_permissible_values o).
Proof.
  assert (Multichoice.m_choices (after_all (map Multichoice.perform cs) o) =
            Multichoice.m_choices o /\
          Multichoice.m_default_value (after_all (map Multichoice.perform cs) o) =
            Multichoice.m_default_value o /\
          Multichoice.classifier (after_all (map Multichoice.perform cs) o) =
            Multichoice.classifier o) as (Hc & Hd & Hcl).
  { revert o. induction cs as [|c cs IH]; intros o; simpl; [auto|].
    destruct (IH (after (Multichoice.perform c) o)) as (Hc & Hd & Hcl).
    rewrite Hc, Hd, Hcl. clear IH Hc Hd Hcl.
    destruct c as [key|c]; unfold after; simpl.
    - destruct (OptionMore.multichoice_set_value_frame o key) as (H1 & _ & H3 & H4).
      auto.
    - rewrite OptionMore.inherited_eq. simpl. auto. }
  repeat split; try assumption.
  unfold Multichoice.num_permissible_values, bind, get, ret. simpl.
  rewrite Hc. reflexivity.
Qed.

(** The current key can always be written back.  On a constructible
    multichoice option with at least one choice, get_value() returns a
    key [k], set_value(k) returns, and get_value() returns [k] again. *)
Theorem multichoice_current_key_can_be_set_again
    (o : Multichoice.GncOptionMultichoiceValue) :
  Multichoice.constructible o ->
  Multichoice.vector_size_ok o ->
  Multichoice.m_choices o <> [] ->
  exists k o',
    Multichoice.get_value o = (inr k, o) /\
    Multichoice.set_value k o = (inr tt, o') /\
    Multichoice.get_value o' = (inr k, o').
Proof.
  intros Hc Hsize Hne.
  destruct (ReadFacts.constructible_indices_ok o Hc) as (_ & Hv).
  assert (Multichoice.m_value o < N.of_nat (length (Multichoice.m_choices o)))%N as Hlt.
  { destruct Hv as [->|Hv]; [|exact Hv].
    destruct (Multichoice.m_choices o); [contradiction|simpl; lia]. }
  destruct (nth_error (Multichoice.m_choices o) (N.to_nat (Multichoice.m_value o)))
    as [e|] eqn:He; [|apply nth_error_None in He; lia].
  assert (Multichoice.get_value o = (inr (get_0 e), o)) as Hget.
  { unfold Multichoice.get_value, bind, get.
    rewrite <- (N2Nat.id (Multichoice.m_value o)).
    rewrite (MultichoiceFacts.vector_at_in_range _ _ _ _ He). reflexivity. }
  destruct (MultichoiceFacts.find_key_present o (get_0 e) Hsize)
    as (i & ((e' & He' & Hk') & _) & _ & Hmax & Hfind).
  { exists e. split; [eapply nth_error_In; exact He|reflexivity]. }
  exists (get_0 e). eexists. split; [exact Hget|]. split.
  - unfold Multichoice.set_value, bind. rewrite Hfind.
    destruct (N.eqb_spec (N.of_nat i) size_t_max) as [E|_]; [contradiction|].
    reflexivity.
  - unfold Multichoice.get_value, bind, get. simpl.
    rewrite (MultichoiceFacts.vector_at_in_range _ _ _ _ He').
    unfold ret. rewrite Hk'. reflexivity.
Qed.

Lemma multichoice_current_key_can_be_set_again_witness :
  exists k o',
    Multichoice.get_value
        (after (Multichoice.set_value "b")
           (Multichoice.ctor "Report" "Style" "a" ""
              [("a", "Alpha", ""); ("b", "Beta", "")] MULTICHOICE)) =
      (inr k,
       after (Multichoice.set_value "b")
         (Multichoice.ctor "Report" "Style" "a" ""
            [("a", "Alpha", ""); ("b", "Beta", "")] MULTICHOICE)) /\
    Multichoice.get_value o' = (inr k, o').
Proof.
  destruct (multichoice_current_key_can_be_set_again
              (after (Multichoice.perform (Multichoice.call_set_value "b"))
                 (Multichoice.ctor "Report" "Style" "a" ""
                    [("a", "Alpha", ""); ("b", "Beta", "")] MULTICHOICE)))
    as (k & o' & Hget & _ & Hget').
  - apply Multichoice.called. apply Multichoice.made.
  - unfold Multichoice.vector_size_ok. vm_compute. discriminate.
  - simpl. discriminate.
  - exists k, o'. split; [exact Hget | exact Hget'].
Defined.

(** ** Range options, continued *)

Module RangeMore.
Section Template.
Context {ValueType : Type} `{Comparable ValueType}.

(** One set_value, caught or not, keeps the bounds, and keeps a value
    within the bounds within them. *)
Lemma set_value_within (o : Range.GncOptionRangeValue ValueType) (x : ValueType) :
  Range.m_min (after (Range.set_value x) o) = Range.m_min o /\
  Range.m_max (after (Range.set_value x) o) = Range.m_max o /\
  (le_rel (Range.m_min o) (Range.m_value o) /\
   le_rel (Range.m_value o) (Range.m_max o) ->
   le_rel (Range.m_min o) (Range.m_value (after (Range.set_value x) o)) /\
   le_rel (Range.m_value (after (Range.set_value x) o)) (Range.m_max o)).
Proof.
  unfold after, Range.set_value, Range.validate, bind, get, ret.
  destruct (ge_op x (Range.m_min o) && le_op x (Range.m_max o)) eqn:E; simpl.
  - apply RangeFacts.in_range_spec in E. auto.
  - auto.
Qed.

Lemma after_all_within (xs : list ValueType) (o : Range.GncOptionRangeValue ValueType) :
  Range.m_min (after_all (map Range.set_value xs) o) = Range.m_min o /\
  Range.m_max (after_all (map Range.set_value xs) o) = Range.m_max o /\
  (le_rel (Range.m_min o) (Range.m_value o) /\
   le_rel (Range.m_value o) (Range.m_max o) ->
   le_rel (Range.m_min o) (Range.m_value (after_all (map Range.set_value xs) o)) /\
   le_rel (Range.m_value (after_all (map Range.set_value xs) o)) (Range.m_max o)).
Proof.
  revert o. induction xs as [|x xs IH]; intros o; simpl; [auto|].
  destruct (set_value_within o x) as (Hmin & Hmax & Hin).
  destruct (IH (after (Range.set_value x) o)) as (Hmin' & Hmax' & Hin').
  rewrite Hmin, Hmax in *. auto.
Qed.
End Template.
End RangeMore.

(** validate(v) of a range option returns without touching the option,
    returns true exactly when [m_min <= v <= m_max], and that is exactly
    when set_value(v) returns. *)
Theorem range_validate_predicts_set_value {ValueType : Type} `{Comparable ValueType}
    (o : Range.GncOptionRangeValue ValueType) (v : ValueType) :
  exists b,
    Range.validate v o = (inr b, o) /\
    (b = true <-> le_rel (Range.m_min o) v /\ le_rel v (Range.m_max o)) /\
    (b = true <-> exists o', Range.set_value v o = (inr tt, o')).
Proof.
  exists (ge_op v (Range.m_min o) && le_op v (Range.m_max o)).
  split; [reflexivity|]. split; [apply RangeFacts.in_range_spec|].
  unfold Range.set_value, Range.validate, bind, get, ret.
  destruct (ge_op v (Range.m_min o) && le_op v (Range.m_max o)); simpl.
  - split; [|reflexivity]. intros _. eexists. reflexivity.
  - split; [discriminate|]. intros (o' & E). discriminate E.
Qed.

(** When [min <= min] and [min <= max], the stored value and the default
    of a range option lie within [min, max] after construction with any
    value and after any sequence of set_value calls, caught when they
    throw, and the bounds are the constructor's. *)
Theorem range_value_stays_within_bounds {ValueType : Type} `{Comparable ValueType}
    (section name key doc_string : string) (v min max step : ValueType)
    (xs : list ValueType) :
  le_rel min min ->
  le_rel min max ->
  le_rel min
    (Range.m_value (after_all (map Range.set_value xs)
                      (Range.ctor section name key doc_string v min max step))) /\
  le_rel
    (Range.m_value (after_all (map Range.set_value xs)
                      (Range.ctor section name key doc_string v min max step))) max /\
  le_rel min
    (Range.m_default_value (after_all (map Range.set_value xs)
                              (Range.ctor section name key doc_string v min max step))) /\
  le_rel
    (Range.m_default_value (after_all (map Range.set_value xs)
                              (Range.ctor section name key doc_string v min max step)))
    max /\
  Range.m_min (after_all (map Range.set_value xs)
                 (Range.ctor section name key doc_string v min max step)) = min /\
  Range.m_max (after_all (map Range.set_value xs)
                 (Range.ctor section name key doc_string v min max step)) = max.
Proof.
  intros Hrefl Hle.
  destruct (RangeMore.after_all_within xs
              (Range.ctor section name key doc_string v min max step))
    as (Hmin & Hmax & Hin).
  rewrite ReadFacts.range_after_all_default.
  assert (le_rel min (if ge_op v min && le_op v max then v else min) /\
          le_rel (if ge_op v min && le_op v max then v else min) max) as Hstart.
  { destruct (ge_op v min && le_op v max) eqn:E.
    - now apply RangeFacts.in_range_spec.
    - auto. }
  simpl in Hmin, Hmax, Hin |- *.
  destruct (Hin Hstart) as (H1 & H2). destruct Hstart as (H3 & H4).
  repeat split; assumption.
Qed.

Lemma range_value_stays_within_bounds_witness :
  (0 <= Range.m_value (after_all (map Range.set_value [7; 15; -3])
                         (Range.ctor "Plot" "Width" "a" "" 50 0 10 1)) /\
   Range.m_value (after_all (map Range.set_value [7; 15; -3])
                    (Range.ctor "Plot" "Width" "a" "" 50 0 10 1)) <= 10)%Z.
Proof.
  destruct (range_value_stays_within_bounds (ValueType := int)
              "Plot" "Width" "a" "" 50 0 10 1 [7; 15; -3])%Z
    as (H1 & H2 & _).
  - simpl. lia.
  - simpl. lia.
  - split; [exact H1 | exact H2].
Defined.

(** The constructor does not check that [min <= max].  When no value
    lies within the bounds, the option holds [min] whatever value it was
    constructed with, and every set_value throws, so it holds [min] for
    good. *)
Theorem range_with_empty_bounds_is_stuck_at_min
    {ValueType : Type} `{Comparable ValueType}
    (section name key doc_string : string) (v min max step : ValueType)
    (xs : list ValueType) :
  (forall x, ~ (le_rel min x /\ le_rel x max)) ->
  after_all (map Range.set_value xs)
      (Range.ctor section name key doc_string v min max step) =
    Range.ctor section name key doc_string min min max step /\
  Range.get_value (Range.ctor section name key doc_string v min max step) =
    (inr min, Range.ctor section name key doc_string v min max step) /\
  forall x,
    Range.set_value x (Range.ctor section name key doc_string v min max step) =
      (inl (std_invalid_argument "Validation failed, value not set."),
       Range.ctor section name key doc_string v min max step).
Proof.
  intros Hempty.
  assert (forall x, ge_op x min && le_op x max = false) as Hout
    by (intros x; apply RangeFacts.out_of_range_spec; apply Hempty).
  assert (Range.ctor section name key doc_string v min max step =
            Range.ctor section name key doc_string min min max step) as Hctor
    by (unfold Range.ctor; rewrite !Hout; reflexivity).
  assert (forall x,
            Range.set_value x (Range.ctor section name key doc_string v min max step) =
              (inl (std_invalid_argument "Validation failed, value not set."),
               Range.ctor section name key doc_string v min max step)) as Hset.
  { intros x. unfold Range.set_value, Range.validate, bind, get, ret. simpl.
    rewrite Hout. reflexivity. }
  split; [|split].
  - rewrite <- Hctor. induction xs as [|x xs IH]; simpl; [reflexivity|].
    unfold after at 1. rewrite Hset. exact IH.
  - unfold Range.get_value, bind, get, ret. simpl. rewrite Hout. reflexivity.
  - exact Hset.
Qed.

Lemma range_with_empty_bounds_is_stuck_at_min_witness :
  (after_all (map Range.set_value [3; 10; 0])
     (Range.ctor "Plot" "Width" "a" "" 5 10 0 1) =
   Range.ctor "Plot" "Width" "a" "" 10 10 0 1)%Z.
Proof.
  apply (range_with_empty_bounds_is_stuck_at_min (ValueType := int)
           "Plot" "Width" "a" "" 5 10 0 1 [3; 10; 0])%Z.
  simpl. intros x. lia.
Defined.

(** ** Validated options, continued *)

(** validate(x) of a validated option returns what the validator returns
    and does not touch the option, and set_value(x) returns exactly when
    that is true.  With an empty validator both throw
    std::bad_function_call and leave the option alone. *)
Theorem validated_validate_predicts_set_value {ValueType : Type}
    (o : Validated.GncOptionValidatedValue ValueType) (x : ValueType) :
  (forall target, Validated.m_validator o = Some target ->
     Validated.validate x o = (inr (target x), o) /\
     (target x = true <-> exists o', Validated.set_value x o = (inr tt, o'))) /\
  (Validated.m_validator o = None ->
     Validated.validate x o = (inl std_bad_function_call, o) /\
     Validated.set_value x o = (inl std_bad_function_call, o)).
Proof.
  unfold Validated.set_value, Validated.validate, invoke, bind, get, ret, throw.
  split.
  - intros target Hf. rewrite Hf. split; [reflexivity|].
    destruct (target x); simpl.
    + split; [|reflexivity]. intros _. eexists. reflexivity.
    + split; [discriminate|]. intros (o' & E). discriminate E.
  - intros Hf. rewrite Hf. split; reflexivity.
Qed.

(** ** set_value then get_value *)

Module RoundTrip.

Lemma range_round_trip {ValueType : Type} `{Comparable ValueType}
    (o o' : Range.GncOptionRangeValue ValueType) (x : ValueType) :
  Range.set_value x o = (inr tt, o') -> Range.get_value o' = (inr x, o').
Proof.
  unfold Range.set_value, Range.validate, bind, get, ret.
  destruct (ge_op x (Range.m_min o) && le_op x (Range.m_max o)); simpl;
    intros E; inversion E. reflexivity.
Qed.

Lemma validated_round_trip {ValueType : Type}
    (o o' : Validated.GncOptionValidatedValue ValueType) (x : ValueType) :
  Validated.set_value x o = (inr tt, o') -> Validated.get_value o' = (inr x, o').
Proof.
  unfold Validated.set_value, Validated.validate, invoke, bind, get, ret, throw.
  destruct (Validated.m_validator o) as [target|]; simpl; [|discriminate].
  destruct (target x); simpl; intros E; inversion E. reflexivity.
Qed.

Lemma multichoice_round_trip (o o' : Multichoice.GncOptionMultichoiceValue)
    (key : string) :
  Multichoice.vector_size_ok o ->
  Multichoice.set_value key o = (inr tt, o') ->
  Multichoice.get_value o' = (inr key, o').
Proof.
  intros Hsize. unfold Multichoice.set_value, bind.
  destruct (MultichoiceMore.find_key_cases o key Hsize)
    as [(Hfind & _)|(i & Hfind & Hmax & _ & ((e & He & Hk) & _))];
    rewrite Hfind.
  - simpl. discriminate.
  - destruct (N.eqb_spec (N.of_nat i) size_t_max) as [E|_]; [contradiction|].
    simpl. unfold modify. intros E. inversion E.
    unfold Multichoice.get_value, bind, get. simpl.
    rewrite (MultichoiceFacts.vector_at_in_range _ _ _ _ He).
    unfold ret. rewrite Hk. reflexivity.
Qed.

End RoundTrip.

(** Through the wrapper, for every alternative but the date: when
    set_value<T>(x) with the value type [T] of the alternative returns,
    get_value<T>() returns [x] and leaves the option alone. *)
Theorem option_set_value_then_get_value
    (now : time64) (relative_date : DateType -> RelativeDatePeriod -> time64 -> time64)
    (this this' : Option.GncOption) (T : cpp_type) (x : denote T) :
  value_type (Option.m_option this) = T ->
  holds_date this = false ->
  GncOption_vector_size_ok this ->
  Option.set_value T x this = (inr tt, this') ->
  Option.get_value now relative_date T this' = (inr x, this').
Proof.
  destruct this as [v].
  destruct v as [o|o|o|o|o|o|o|o|o|o|o]; simpl; intros HT Hdate Hsize; subst T;
    try discriminate Hdate;
    unfold Option.set_value, Option.get_value; simpl;
    unfold Option.if_same_type_set, Option.if_same_type, eq_rect_r; simpl;
    unfold Option.on;
    match goal with
    | |- (let (_, _) := ?m in _) = _ -> _ => destruct m as [r o'] eqn:E
    end;
    intros Hs; inversion Hs; subst; simpl.
  1-6: (unfold PlainValue.set_value, modify in E; inversion E; reflexivity).
  - rewrite (RoundTrip.multichoice_round_trip o o' x Hsize E). reflexivity.
  - pose proof (RoundTrip.range_round_trip o o' x E) as Hget.
    unfold Range.get_value, bind, get, ret in Hget. injection Hget as Hv.
    rewrite Hv. reflexivity.
  - pose proof (RoundTrip.range_round_trip o o' x E) as Hget.
    unfold Range.get_value, bind, get, ret in Hget. injection Hget as Hv.
    rewrite Hv. reflexivity.
  - pose proof (RoundTrip.validated_round_trip o o' x E) as Hget.
    unfold Validated.get_value, bind, get, ret in Hget. injection Hget as Hv.
    rewrite Hv. reflexivity.
Qed.

Lemma option_set_value_then_get_value_witness :
  exists this',
    Option.set_value std_string "b"
      (Option.wrap (alt_Multichoice
                      (Multichoice.ctor "Report" "Style" "a" ""
                         [("a", "Alpha", ""); ("b", "Beta", "")] MULTICHOICE))) =
      (inr tt, this') /\
    Option.get_value 0%Z (fun _ _ t => t) std_string this' = (inr "b", this').
Proof.
  eexists. split; [reflexivity|].
  apply (option_set_value_then_get_value 0%Z (fun _ _ t => t)
           (Option.wrap (alt_Multichoice
                           (Multichoice.ctor "Report" "Style" "a" ""
                              [("a", "Alpha", ""); ("b", "Beta", "")] MULTICHOICE)))
           _ std_string "b").
  - reflexivity.
  - reflexivity.
  - unfold GncOption_vector_size_ok, Multichoice.vector_size_ok. vm_compute. discriminate.
  - reflexivity.
Defined.

(** ** gnc_plugin_set_actions_enabled *)

Module PluginFacts.

(** The loop returns, and leaves a group and a log that are described
    name by name. *)
Lemma loop_effect (action_names : list string) (enable : bool) (w : Plugin.World) :
  exists w',
    Plugin.set_actions_enabled_loop action_names enable w = (inr tt, w') /\
    (forall n,
       Plugin.group w' n =
         match Plugin.group w n with
         | Some was => Some (if existsb (String.eqb n) action_names then enable else was)
         | None => None
         end) /\
    Plugin.perr_log w' =
      (Plugin.perr_log w ++
       filter (fun n => match Plugin.group w n with Some _ => false | None => true end)
         action_names)%list.
Proof.
  revert w. induction action_names as [|name rest IH]; intros w; simpl.
  - exists w. split; [reflexivity|]. split.
    + intros n. destruct (Plugin.group w n); reflexivity.
    + now rewrite app_nil_r.
  - unfold bind at 1. unfold Plugin.g_action_map_lookup_action, bind, get, ret.
    destruct (Plugin.group w name) as [was|] eqn:Hname; simpl.
    + destruct (IH {| Plugin.group :=
                        fun n => if String.eqb n name then Some enable
                                 else Plugin.group w n;
                      Plugin.perr_log := Plugin.perr_log w |})
        as (w' & Hrun & Hgroup & Hlog).
      exists w'. unfold Plugin.g_simple_action_set_enabled, modify.
      split; [exact Hrun|]. split.
      * intros n. rewrite Hgroup. simpl.
        destruct (String.eqb_spec n name) as [->|Hne]; simpl.
        -- rewrite Hname. destruct (existsb (String.eqb name) rest); reflexivity.
        -- reflexivity.
      * rewrite Hlog. simpl. f_equal.
        apply filter_ext_in. intros n _.
        destruct (String.eqb_spec n name) as [->|Hne]; [|reflexivity].
        rewrite Hname. reflexivity.
    + destruct (IH {| Plugin.group := Plugin.group w;
                      Plugin.perr_log := Plugin.perr_log w ++ [name] |})
        as (w' & Hrun & Hgroup & Hlog).
      exists w'. unfold Plugin.PERR, modify.
      split; [exact Hrun|]. split.
      * intros n. rewrite Hgroup. simpl.
        destruct (String.eqb_spec n name) as [->|Hne]; simpl; [|reflexivity].
        rewrite Hname. reflexivity.
      * rewrite Hlog. simpl. rewrite <- app_assoc. reflexivity.
Qed.

End PluginFacts.

(** gnc_plugin_set_actions_enabled on a group that is not NULL returns
    after going through all the names.  Afterwards the group has the same
    actions; an action is enabled or disabled as [enable] says when its
    name is in the list, and is as it was otherwise.  A name without an
    action does not stop the loop: the log receives one PERR message for
    each such name, in the order of the list. *)
Theorem set_actions_enabled_sets_listed_and_reports_missing
    (action_names : list string) (enable : bool) (w : Plugin.World) :
  exists w',
    Plugin.gnc_plugin_set_actions_enabled true action_names enable w = (inr tt, w') /\
    (forall n was, Plugin.group w n = Some was ->
       In n action_names -> Plugin.group w' n = Some enable) /\
    (forall n, ~ In n action_names -> Plugin.group w' n = Plugin.group w n) /\
    (forall n, Plugin.group w' n = None <-> Plugin.group w n = None) /\
    Plugin.perr_log w' =
      (Plugin.perr_log w ++
       filter (fun n => match Plugin.group w n with Some _ => false | None => true end)
         action_names)%list.
Proof.
  destruct (PluginFacts.loop_effect action_names enable w) as (w' & Hrun & Hgroup & Hlog).
  exists w'. split; [exact Hrun|].
  assert (forall n, existsb (String.eqb n) action_names = true <-> In n action_names)
    as Hin.
  { intros n. rewrite existsb_exists. split.
    - intros (m & Hm & E). apply String.eqb_eq in E. now subst.
    - intros Hn. exists n. split; [exact Hn|apply String.eqb_refl]. }
  split; [|split; [|split]].
  - intros n was Hwas Hn. rewrite Hgroup, Hwas.
    rewrite (proj2 (Hin n) Hn). reflexivity.
  - intros n Hn. rewrite Hgroup.
    destruct (Plugin.group w n) as [was|]; [|reflexivity].
    destruct (existsb (String.eqb n) action_names) eqn:E; [|reflexivity].
    exfalso. apply Hn. now apply Hin.
  - intros n. rewrite Hgroup.
    destruct (Plugin.group w n); split; intros E; try discriminate E; reflexivity.
  - exact Hlog.
Qed.

(** Enabling or disabling the same names twice leaves the group as the
    first call left it. *)
Theorem set_actions_enabled_twice_is_once
    (action_names : list string) (enable : bool) (w : Plugin.World) (n : string) :
  Plugin.group
      (after (Plugin.gnc_plugin_set_actions_enabled true action_names enable)
         (after (Plugin.gnc_plugin_set_actions_enabled true action_names enable) w)) n =
    Plugin.group
      (after (Plugin.gnc_plugin_set_actions_enabled true action_names enable) w) n.
Proof.
  unfold after, Plugin.gnc_plugin_set_actions_enabled.
  destruct (PluginFacts.loop_effect action_names enable w) as (w1 & Hrun1 & Hgroup1 & _).
  rewrite Hrun1. simpl.
  destruct (PluginFacts.loop_effect action_names enable w1) as (w2 & Hrun2 & Hgroup2 & _).
  rewrite Hrun2. simpl.
  rewrite Hgroup2, Hgroup1.
  destruct (Plugin.group w n) as [was|]; [|reflexivity].
  destruct (existsb (String.eqb n) action_names); reflexivity.
Qed.

Module PluginScenarios.

(** A group with the actions FileSave (enabled) and EditCut (disabled). *)
Definition actions : Plugin.World :=
  {| Plugin.group := fun n =>
       if String.eqb n "FileSave" then Some true
       else if String.eqb n "EditCut" then Some false
       else None;
     Plugin.perr_log := [] |}.

(** Disabling FileSave, a name without an action and EditCut: both
    actions end disabled and the missing name is reported once, without
    stopping the loop before EditCut. *)
Example disable_with_a_missing_name :
  let w' := after (Plugin.gnc_plugin_set_actions_enabled true
                     ["FileSave"; "NoSuchAction"; "EditCut"] false) actions in
  Plugin.group w' "FileSave" = Some false /\
  Plugin.group w' "EditCut" = Some false /\
  Plugin.group w' "NoSuchAction" = None /\
  Plugin.perr_log w' = ["NoSuchAction"].
Proof. repeat split. Qed.

(** With a NULL group nothing happens. *)
Example null_group_is_left_alone :
  Plugin.gnc_plugin_set_actions_enabled false ["FileSave"] false actions =
    (inr tt, actions).
Proof. reflexivity. Qed.

End PluginScenarios.
